(** * infinite-react-slider: a shallow embedding of [src/lib/index.js]

    The component is a React function component.  Its [useState] and
    [useRef] cells are the fields of one record, together with the
    browser's animation-frame queue as an explicit list of pending
    callbacks; the two [useMemo] caches are a record of their own that the
    render function threads through.  Event handlers, effects and frame
    callbacks are state transformers.

    JavaScript numbers are modelled as exact rationals extended with the
    two infinities and NaN (no rounding, no signed zero); the animation
    driver is given a second time on binary64 numbers (module [F64]), to
    run the traces on which rounding shows.  Pixel
    measurements read from the DOM ([offsetWidth], [offsetHeight],
    [innerWidth]) are integers.  The effect that copies [translate] into
    [lastProgressStep] is taken to have run before the next event is
    handled.  A run is a sequence of frames, scrolls, visibility changes
    and resizes under fixed props and a fixed number of children; a render
    with another number of children is the separate transition
    [children_changed]. *)

From Stdlib Require Import ZArith QArith Qround Qabs Qminmax.
From Stdlib Require Import List Bool String Lia Lqa.
From Stdlib Require Import Decimal DecimalString DecimalNat.
From Stdlib Require PrimFloat.
Import ListNotations.

Open Scope Q_scope.

(** ** JavaScript values used by the component *)

Module Js.

(** A JavaScript number. *)
Inductive number : Type :=
| Fin (q : Q)
| PosInf
| NegInf
| NaN.

(** Strict [<] on rationals, as a boolean. *)
Definition Qltb (x y : Q) : bool := negb (Qle_bool y x).

(** [a < b] on numbers: any comparison with NaN is false. *)
Definition lt (a b : number) : bool :=
  match a, b with
  | NaN, _ | _, NaN => false
  | Fin x, Fin y => Qltb x y
  | Fin _, PosInf => true
  | Fin _, NegInf => false
  | PosInf, _ => false
  | NegInf, NegInf => false
  | NegInf, _ => true
  end.

(** [a / b] on numbers.  A finite non-zero numerator over zero gives an
    infinity, zero over zero gives NaN. *)
Definition div (a b : number) : number :=
  match a, b with
  | NaN, _ | _, NaN => NaN
  | Fin x, Fin y =>
      if Qeq_bool y 0
      then if Qeq_bool x 0 then NaN
           else if Qltb 0 x then PosInf else NegInf
      else Fin (x / y)
  | Fin _, _ => Fin 0
  | PosInf, Fin y => if Qltb y 0 then NegInf else PosInf
  | NegInf, Fin y => if Qltb y 0 then PosInf else NegInf
  | _, _ => NaN
  end.

(** [a * b] on numbers. *)
Definition mul (a b : number) : number :=
  match a, b with
  | NaN, _ | _, NaN => NaN
  | Fin x, Fin y => Fin (x * y)
  | Fin x, PosInf | PosInf, Fin x =>
      if Qeq_bool x 0 then NaN else if Qltb 0 x then PosInf else NegInf
  | Fin x, NegInf | NegInf, Fin x =>
      if Qeq_bool x 0 then NaN else if Qltb 0 x then NegInf else PosInf
  | PosInf, PosInf | NegInf, NegInf => PosInf
  | PosInf, NegInf | NegInf, PosInf => NegInf
  end.

(** [Object.is] on numbers, the comparison [useMemo] applies to its
    dependencies: NaN is equal to itself. *)
Definition same (a b : number) : bool :=
  match a, b with
  | Fin x, Fin y => Qeq_bool x y
  | PosInf, PosInf | NegInf, NegInf | NaN, NaN => true
  | _, _ => false
  end.

(** First decimal digit of a positive integer. *)
Fixpoint lead_int (fuel : nat) (n : Z) : Z :=
  match fuel with
  | O => n
  | S f => if (n <? 10)%Z then n else lead_int f (n / 10)%Z
  end.

(** First significant decimal digit of a rational in (0, 1). *)
Fixpoint lead_frac (fuel : nat) (q : Q) : Z :=
  match fuel with
  | O => 0%Z
  | S f => if Qle_bool 1 q then Qfloor q else lead_frac f (q * 10)
  end.

Definition leading_digit (q : Q) : Z :=
  if Qle_bool 1 q
  then lead_int (S (Z.to_nat (Z.log2 (Qfloor q)))) (Qfloor q)
  else lead_frac (S (Pos.size_nat (Qden q))) q.

(** [parseInt(x)] applied to a number: the number is first printed, then the
    longest prefix that is an integer literal is read back.  Magnitudes in
    [1e-6, 1e21) print in positional notation, so the result is the number
    truncated toward zero; other non-zero magnitudes print in exponent
    notation ("d.ddde+N"), so the result is the leading digit; [Infinity]
    and [NaN] print as words and read back as NaN. *)
Definition parseInt (x : number) : number :=
  match x with
  | Fin q =>
      let a := Qabs q in
      let m :=
        if Qeq_bool q 0 then 0%Z
        else if Qle_bool (1 # 1000000) a && Qltb a 1000000000000000000000
             then Qfloor a
             else leading_digit a in
      Fin (inject_Z (Z.sgn (Qnum q) * m))
  | _ => NaN
  end.

(** [!x] for a ref cell that holds [undefined], [null], NaN (all [None]) or
    a finite number: zero is falsy too. *)
Definition falsy (x : option Q) : bool :=
  match x with
  | None => true
  | Some q => Qeq_bool q 0
  end.

(** The length argument of [new Array(n)]: a non-negative integer below
    2^32, otherwise the constructor throws a RangeError. *)
Definition array_length (n : number) : option nat :=
  match n with
  | Fin q =>
      if Qeq_bool q (inject_Z (Qfloor q))
         && (0 <=? Qfloor q)%Z && (Qfloor q <? 2 ^ 32)%Z
      then Some (Z.to_nat (Qfloor q))
      else None
  | _ => None
  end.

End Js.

(** ** Defaults *)

Definition TOTAL_TIME : Q := 10000.
Definition OFFSET_TOP : Q := 0.
Definition OFFSET_BOTTOM : Q := 0.
Definition DEFAULT_DUPLICATES : Js.number := Js.Fin 2.
Definition FPS : Q := 1000 / 60.

(** The props the component destructures (children are passed separately). *)
Record Props : Type := mkProps {
  totalTime : Q;
  offsetTop : Q;
  offsetBottom : Q;
  fps : Q
}.

Definition default_props : Props :=
  {| totalTime := TOTAL_TIME;
     offsetTop := OFFSET_TOP;
     offsetBottom := OFFSET_BOTTOM;
     fps := FPS |}.

(** ** DOM measurements *)

(** A rendered child of the slider element. *)
Record Element : Type := mkElement {
  offsetWidth : Z;
  offsetHeight : Z
}.

Record SlideData : Type := mkSlideData {
  width : Z;
  height : Z
}.

(** [ref.current]: [None] while the slider element is not attached. *)
Definition SliderRef : Type := option (list Element).

Definition getSlidesData (slider : SliderRef) (initialLength : nat)
  : list SlideData :=
  match slider with
  | None => []
  | Some slides =>
      map (fun slide => {| width := offsetWidth slide;
                           height := offsetHeight slide |})
          (firstn initialLength slides)
  end.

(** A [useState] cell that starts as the string "auto" and later holds a
    measured number. *)
Inductive Size : Type :=
| Auto
| Num (n : Z).

(** ToNumber: the string "auto" converts to NaN. *)
Definition to_number (s : Size) : Js.number :=
  match s with
  | Auto => Js.NaN
  | Num n => Js.Fin (inject_Z n)
  end.

Definition same_size (a b : Size) : bool :=
  match a, b with
  | Auto, Auto => true
  | Num x, Num y => (x =? y)%Z
  | _, _ => false
  end.

(** [getBoundingClientRect()] of the slider, the two fields that are read. *)
Record Rect : Type := mkRect {
  top : Q;
  rect_height : Q
}.

(** ** Component state and the animation-frame queue *)

(** What [requestAnimationFrame] was given: [animateSlider] itself, or the
    arrow function built by [play], which closes over [timeEnlapsed]
    ([None] when the product is NaN). *)
Inductive Callback : Type :=
| CbAnimate
| CbResume (timeEnlapsed : option Q).

Record State : Type := mkState {
  (* useState *)
  sliderWidth : Size;
  sliderHeight : Size;
  duplicates : Js.number;
  translate : Q;
  (* useRef; [None] is undefined, null or NaN *)
  currentTime : option Q;
  frameId : option positive;
  lastProgressStep : option Q;
  lastFrameTimestamp : option Q;
  (* the window's animation-frame queue and its handle counter *)
  pending : list (positive * Callback);
  nextHandle : positive;
  (* every value passed to setTranslate, most recent first *)
  published : list Q
}.

Definition setSliderWidth (v : Size) (s : State) : State :=
  mkState v (sliderHeight s) (duplicates s) (translate s) (currentTime s)
          (frameId s) (lastProgressStep s) (lastFrameTimestamp s)
          (pending s) (nextHandle s) (published s).

Definition setSliderHeight (v : Size) (s : State) : State :=
  mkState (sliderWidth s) v (duplicates s) (translate s) (currentTime s)
          (frameId s) (lastProgressStep s) (lastFrameTimestamp s)
          (pending s) (nextHandle s) (published s).

Definition setDuplicates (v : Js.number) (s : State) : State :=
  mkState (sliderWidth s) (sliderHeight s) v (translate s) (currentTime s)
          (frameId s) (lastProgressStep s) (lastFrameTimestamp s)
          (pending s) (nextHandle s) (published s).

(** [setTranslate(v)]: the state cell changes, the value is recorded as
    published, and the effect with dependency [translate] copies it into
    [lastProgressStep] when the render commits. *)
Definition setTranslate (v : Q) (s : State) : State :=
  mkState (sliderWidth s) (sliderHeight s) (duplicates s) v (currentTime s)
          (frameId s) (Some v) (lastFrameTimestamp s)
          (pending s) (nextHandle s) (v :: published s).

Definition set_currentTime (v : option Q) (s : State) : State :=
  mkState (sliderWidth s) (sliderHeight s) (duplicates s) (translate s) v
          (frameId s) (lastProgressStep s) (lastFrameTimestamp s)
          (pending s) (nextHandle s) (published s).

Definition set_frameId (v : option positive) (s : State) : State :=
  mkState (sliderWidth s) (sliderHeight s) (duplicates s) (translate s)
          (currentTime s) v (lastProgressStep s) (lastFrameTimestamp s)
          (pending s) (nextHandle s) (published s).

Definition set_lastProgressStep (v : option Q) (s : State) : State :=
  mkState (sliderWidth s) (sliderHeight s) (duplicates s) (translate s)
          (currentTime s) (frameId s) v (lastFrameTimestamp s)
          (pending s) (nextHandle s) (published s).

Definition set_lastFrameTimestamp (v : option Q) (s : State) : State :=
  mkState (sliderWidth s) (sliderHeight s) (duplicates s) (translate s)
          (currentTime s) (frameId s) (lastProgressStep s) v
          (pending s) (nextHandle s) (published s).

Definition set_pending (v : list (positive * Callback)) (s : State) : State :=
  mkState (sliderWidth s) (sliderHeight s) (duplicates s) (translate s)
          (currentTime s) (frameId s) (lastProgressStep s)
          (lastFrameTimestamp s) v (nextHandle s) (published s).

(** [window.requestAnimationFrame(cb)]: queue the callback for the next
    frame and return a fresh non-zero handle. *)
Definition requestAnimationFrame (cb : Callback) (s : State)
  : positive * State :=
  let h := nextHandle s in
  (h, mkState (sliderWidth s) (sliderHeight s) (duplicates s) (translate s)
              (currentTime s) (frameId s) (lastProgressStep s)
              (lastFrameTimestamp s) (pending s ++ [(h, cb)]) (Pos.succ h)
              (published s)).

(** [cancelAnimationFrame(h)]: drop the callback with that handle; a null
    handle matches nothing. *)
Definition cancelAnimationFrame (h : option positive) (s : State) : State :=
  match h with
  | None => s
  | Some h =>
      set_pending (filter (fun p => negb (Pos.eqb (fst p) h)) (pending s)) s
  end.

(** [frameId.current = window.requestAnimationFrame(cb)] *)
Definition schedule (cb : Callback) (s : State) : State :=
  let (h, s') := requestAnimationFrame cb s in set_frameId (Some h) s'.

(** [if (!r.current) r.current = v], followed by a read of [r.current]. *)
Definition init_if_falsy (r : option Q) (v : Q) : Q :=
  match r with
  | Some q => if Qeq_bool q 0 then v else q
  | None => v
  end.

(** ** The animation driver *)

Section Driver.

Variable cfg : Props.

(** [animateSlider(timestamp)].  Progress is an exact rational; the model
    is meant for a non-zero [totalTime]. *)
Definition animateSlider (timestamp : Q) (s : State) : State :=
  let cur := init_if_falsy (currentTime s) timestamp in
  let s := set_currentTime (Some cur) s in
  let last := init_if_falsy (lastFrameTimestamp s) timestamp in
  let s := set_lastFrameTimestamp (Some last) s in
  let timeEnlapsedSinceLastFrame := timestamp - last in
  if Js.Qltb (fps cfg) timeEnlapsedSinceLastFrame then
    let progress := Qmin ((timestamp - cur) / totalTime cfg) 1 in
    let s := setTranslate progress s in
    let s := set_lastFrameTimestamp None s in
    if Js.Qltb progress 1 then schedule CbAnimate s
    else
      let s := set_currentTime None s in
      let s := setTranslate 0 s in
      schedule CbAnimate s
  else schedule CbAnimate s.

Definition pause (s : State) : State :=
  set_frameId None (cancelAnimationFrame (frameId s) s).

Definition play (s : State) : State :=
  match frameId s with
  | None =>
      let timeEnlapsed :=
        option_map (fun p => totalTime cfg * p) (lastProgressStep s) in
      schedule (CbResume timeEnlapsed) s
  | Some _ => s
  end.

(** Invoking a queued callback with the frame's timestamp. *)
Definition run_callback (cb : Callback) (timestamp : Q) (s : State) : State :=
  match cb with
  | CbAnimate => animateSlider timestamp s
  | CbResume timeEnlapsed =>
      let s :=
        set_currentTime (option_map (fun e => timestamp - e) timeEnlapsed) s in
      animateSlider timestamp s
  end.

(** One display frame: the callbacks queued so far run in order with the
    same timestamp; what they request goes to the next frame. *)
Definition frame (timestamp : Q) (s : State) : State :=
  fold_left (fun s hc => run_callback (snd hc) timestamp s)
            (pending s) (set_pending [] s).

(** ** The visibility and viewport gate *)

Definition isInViewport (rect : Rect) (innerHeight : Q) : bool :=
  let top' := top rect + rect_height rect - offsetTop cfg in
  let bottom := top rect + offsetBottom cfg in
  Js.Qltb 0 top' && Js.Qltb bottom innerHeight.

Definition handleViewportState (rect : Rect) (innerHeight : Q) (s : State)
  : State :=
  if negb (isInViewport rect innerHeight) then pause s else play s.

Definition handleVisibilityChange (visibilityState : string) (rect : Rect)
           (innerHeight : Q) (s : State) : State :=
  let s := if String.eqb visibilityState "hidden" then pause s else s in
  if String.eqb visibilityState "visible" && isInViewport rect innerHeight
  then play s else s.

End Driver.

(** ** The duplicator and the layout measurer *)

Definition duplicateSlides (innerWidth : Z) (s : State) : State :=
  if Js.lt (to_number (sliderWidth s)) (Js.Fin (inject_Z innerWidth)) then
    let duplicateSize :=
      Js.div (Js.Fin (inject_Z innerWidth))
             (Js.div (to_number (sliderWidth s)) (Js.Fin 2)) in
    setDuplicates (Js.parseInt duplicateSize) s
  else setDuplicates DEFAULT_DUPLICATES s.

Definition maxHeight (slidesData : list SlideData) : Z :=
  fold_left (fun a b => if (a >? height b)%Z then a else height b)
            slidesData 0%Z.

Definition totalWidth (slidesData : list SlideData) : Z :=
  fold_left (fun a b => (a + width b)%Z) slidesData 0%Z.

Definition updateSliderHeight (slider : SliderRef) (nchildren : nat)
           (s : State) : State :=
  setSliderHeight (Num (maxHeight (getSlidesData slider nchildren))) s.

(** ** Mount *)

(** The first render: every hook at its initial value, nothing queued. *)
Definition initial_state : State :=
  {| sliderWidth := Auto;
     sliderHeight := Auto;
     duplicates := Js.Fin 1;
     translate := 0;
     currentTime := None;
     frameId := None;
     lastProgressStep := None;
     lastFrameTimestamp := None;
     pending := [];
     nextHandle := 1%positive;
     published := [] |}.

(** The effect that measures the strip width and fires the animation.  Its
    cleanup only removes the two listeners. *)
Definition start_effect (slider : SliderRef) (nchildren : nat) (s : State)
  : State :=
  let s := setSliderWidth
             (Num (totalWidth (getSlidesData slider nchildren))) s in
  schedule CbAnimate s.

(** The effects of the first commit, in declaration order: save the
    progress, duplicate, measure the height, measure the width and fire
    the animation. *)
Definition mount_effects (slider : SliderRef) (nchildren : nat)
           (innerWidth : Z) (s : State) : State :=
  let s := set_lastProgressStep (Some (translate s)) s in
  let s := duplicateSlides innerWidth s in
  let s := updateSliderHeight slider nchildren s in
  start_effect slider nchildren s.

(** The commit that follows: [duplicateSlides] depends on [sliderWidth], so
    its effect runs again with the measured width. *)
Definition mount (slider : SliderRef) (nchildren : nat) (innerWidth : Z)
  : State :=
  duplicateSlides innerWidth
    (mount_effects slider nchildren innerWidth initial_state).

(** A later render with a different number of children: [children.length]
    is a dependency of the height effect and of the start effect, so both
    run again, and then the duplicator's, for the new width. *)
Definition children_changed (slider : SliderRef) (nchildren : nat)
           (innerWidth : Z) (s : State) : State :=
  duplicateSlides innerWidth
    (start_effect slider nchildren
       (updateSliderHeight slider nchildren s)).

(** ** Events *)

(** What the host delivers after mount, each with what its listeners read:
    a display frame with its timestamp; a scroll, with the slider's
    bounding box and [window.innerHeight]; a visibility change, with
    [document.visibilityState] and the same; a resize, with the slider's
    rendered children, the number of children and [window.innerWidth]. *)
Inductive Event : Type :=
| Frame (timestamp : Q)
| Scroll (rect : Rect) (innerHeight : Q)
| VisibilityChange (visibilityState : string) (rect : Rect) (innerHeight : Q)
| Resize (slider : SliderRef) (nchildren : nat) (innerWidth : Z).

Definition step (cfg : Props) (e : Event) (s : State) : State :=
  match e with
  | Frame timestamp => frame cfg timestamp s
  | Scroll rect innerHeight => handleViewportState cfg rect innerHeight s
  | VisibilityChange v rect innerHeight =>
      handleVisibilityChange cfg v rect innerHeight s
  | Resize slider nchildren innerWidth =>
      updateSliderHeight slider nchildren (duplicateSlides innerWidth s)
  end.

Definition run (cfg : Props) (events : list Event) (s : State) : State :=
  fold_left (fun s e => step cfg e s) events s.

(** ** The renderer *)

(** The style values the component writes. *)
Inductive CssValue : Type :=
| CssKeyword (s : string)        (* a plain string such as "auto" *)
| CssPx (n : Js.number)          (* `${n}px` *)
| CssTranslate (n : Js.number).  (* `translateX(-50%) translateX(-${n}px)` *)

(** A style object: property names with their values, in source order. *)
Definition Style : Type := list (string * CssValue).

Fixpoint style_get (name : string) (st : Style) : option CssValue :=
  match st with
  | [] => None
  | (k, v) :: rest => if String.eqb k name then Some v else style_get name rest
  end.

Definition slideStyle : Style :=
  [ ("display", CssKeyword "inline-flex");
    ("alignItems", CssKeyword "center");
    ("verticalAlign", CssKeyword "middle") ]%string.

(** The two [useMemo] caches: the dependencies of the last computation and
    its value. *)
Record Memo : Type := mkMemo {
  heightMemo : option (Size * CssValue);
  widthMemo : option (Size * Js.number * CssValue)
}.

Definition no_memo : Memo := {| heightMemo := None; widthMemo := None |}.

(** [React.useMemo(compute, deps)]: recompute when there is no cached value
    or a dependency differs from the cached one. *)
Definition useMemo {D V : Type} (same : D -> D -> bool)
           (cell : option (D * V)) (deps : D) (compute : unit -> V)
  : V * option (D * V) :=
  match cell with
  | Some (d, v) =>
      if same d deps then (v, cell)
      else let v' := compute tt in (v', Some (deps, v'))
  | None => let v' := compute tt in (v', Some (deps, v'))
  end.

(** One rendered slide: [<div key={id} style={style}>{child}</div>]. *)
Record Slide (A : Type) : Type := mkSlide {
  key : string;
  style : Style;
  child : A
}.
Arguments mkSlide {A}.
Arguments key {A}.
Arguments style {A}.
Arguments child {A}.

(** The inner [div] (the one that carries [ref]) and its children, one
    array of slides per copy.  The outer [div] only receives the props the
    component does not destructure. *)
Record View (A : Type) : Type := mkView {
  container_style : Style;
  slides : list (list (Slide A))
}.
Arguments mkView {A}.
Arguments container_style {A}.
Arguments slides {A}.

Definition decimal (n : nat) : string :=
  NilEmpty.string_of_uint (Nat.to_uint n).

(** [`slide-${i}-${key}`] *)
Definition slide_id (i key : nat) : string :=
  ("slide-" ++ decimal i ++ "-" ++ decimal key)%string.

Definition same_height_deps (a b : Size) : bool := same_size a b.

Definition same_width_deps (a b : Size * Js.number) : bool :=
  same_size (fst a) (fst b) && Js.same (snd a) (snd b).

(** [typeof sliderHeight === 'string' ? sliderHeight : `${sliderHeight}px`] *)
Definition height_css (sliderHeight : Size) : CssValue :=
  match sliderHeight with
  | Auto => CssKeyword "auto"
  | Num h => CssPx (Js.Fin (inject_Z h))
  end.

(** [typeof sliderWidth === 'string' ? sliderWidth
                                     : `${sliderWidth * duplicates}px`] *)
Definition width_css (sliderWidth : Size) (duplicates : Js.number) : CssValue :=
  match sliderWidth with
  | Auto => CssKeyword "auto"
  | Num w => CssPx (Js.mul (Js.Fin (inject_Z w)) duplicates)
  end.

(** The function component's body after the hooks that hold state: the two
    memos, with the dependency arrays the source gives them, and the
    returned element.  [None] when [new Array(duplicates)] throws. *)
Definition render {A : Type} (children : list A) (m : Memo) (s : State)
  : option (View A * Memo) :=
  let (height, hm) :=
    useMemo same_height_deps (heightMemo m) (sliderHeight s)
      (fun _ => height_css (sliderHeight s)) in
  let (width, wm) :=
    useMemo same_width_deps (widthMemo m) (sliderHeight s, duplicates s)
      (fun _ => width_css (sliderWidth s) (duplicates s)) in
  match Js.array_length (duplicates s) with
  | None => None
  | Some n =>
      Some
        ({| container_style :=
              [ ("width", width);
                ("transform",
                 CssTranslate (Js.mul (Js.Fin (translate s))
                                      (to_number (sliderWidth s)))) ]%string;
            slides :=
              map (fun i =>
                     map (fun kc =>
                            {| key := slide_id i (fst kc);
                               style := slideStyle ++ [("height", height)%string];
                               child := snd kc |})
                         (combine (seq 0 (List.length children)) children))
                  (seq 0 n) |},
         {| heightMemo := hm; widthMemo := wm |})
  end.

(** Renders in sequence, each with the children and the state committed
    for it, and each starting from the caches the previous one left. *)
Fixpoint render_all {A : Type} (m : Memo) (renders : list (list A * State))
  : list (option (View A)) :=
  match renders with
  | [] => []
  | (children, s) :: rest =>
      match render children m s with
      | Some (v, m') => Some v :: render_all m' rest
      | None => None :: render_all m rest
      end
  end.

(** ** The specification's formulas, for comparison with the code *)

(** The duplicate count in the specification's words: the floor of the
    viewport width over half the strip width when the strip is narrower
    than the viewport, otherwise 2. *)
Definition spec_duplicateCount (stripWidth viewportWidth : Z) : Z :=
  if (stripWidth <? viewportWidth)%Z
  then Qfloor (inject_Z viewportWidth / (inject_Z stripWidth / 2))
  else 2%Z.

(** A duplicate count as the specification wants it: an integer, at least 2. *)
Definition count_at_least_two (d : Js.number) : Prop :=
  exists n : Z, d = Js.Fin (inject_Z n) /\ (2 <= n)%Z.

(** Viewport widths a resize can report stay below 5e20 pixels (a DOM
    [long] is far smaller), so that [parseInt] reads positional notation. *)
Definition width_in_range (innerWidth : Z) : Prop :=
  (innerWidth < 500000000000000000000)%Z.

Definition resize_in_range (e : Event) : Prop :=
  match e with
  | Resize _ _ innerWidth => width_in_range innerWidth
  | _ => True
  end.

(** The part of the state the animation driver never writes. *)
Definition layout (s : State) : Size * Size * Js.number :=
  (sliderWidth s, sliderHeight s, duplicates s).

(** ** Runs of the component and what holds along them *)

(** Frame timestamps as the browser hands them out: positive and never
    decreasing.  [now] is the timestamp of the last frame so far. *)
Fixpoint timed (now : Q) (events : list Event) : Prop :=
  match events with
  | [] => True
  | Frame t :: rest => 0 < t /\ now <= t /\ timed t rest
  | _ :: rest => timed now rest
  end.

Fixpoint clock (now : Q) (events : list Event) : Q :=
  match events with
  | [] => now
  | Frame t :: rest => clock t rest
  | _ :: rest => clock now rest
  end.

(** The published values, most recent first: each lies in [0, 1] and is
    at least its predecessor, unless the predecessor is 1 and the value is
    the 0 that starts the next cycle. *)
Fixpoint log_ok (l : list Q) : Prop :=
  match l with
  | [] => True
  | b :: rest =>
      0 <= b <= 1
      /\ match rest with
         | [] => True
         | a :: _ => a <= b \/ (a == 1 /\ b == 0)
         end
      /\ log_ok rest
  end.

(** What one frame callback may publish when the progress before it is
    [before]: nothing, one value below 1 that is not smaller, or 1 followed
    at once by 0. *)
Definition batch_ok (before : Q) (new : list Q) : Prop :=
  new = []
  \/ (exists p, new = [p] /\ before <= p /\ p < 1)
  \/ (exists p, new = [0; p] /\ p == 1).

(** The queue holds the callback [frameId] names and nothing else; a
    queued resume closure carries the elapsed time of the saved progress. *)
Definition callback_ok (cfg : Props) (s : State) (cb : Callback) : Prop :=
  match cb with
  | CbAnimate => True
  | CbResume e =>
      e = option_map (fun p => totalTime cfg * p) (lastProgressStep s)
  end.

Definition sched_ok (cfg : Props) (s : State) : Prop :=
  match frameId s with
  | None => pending s = []
  | Some h => exists cb, pending s = [(h, cb)] /\ callback_ok cfg s cb
  end.

(** The saved progress is the displayed one, it lies in [0, 1), the cycle
    start is positive and consistent with the progress at time [now], and
    the published values are well formed. *)
Definition time_ok (cfg : Props) (now : Q) (s : State) : Prop :=
  lastProgressStep s = Some (translate s)
  /\ 0 <= translate s < 1
  /\ match currentTime s with
     | Some c => 0 < c /\ c + totalTime cfg * translate s <= now
     | None => translate s == 0
     end
  /\ log_ok (published s)
  /\ translate s = hd 0 (published s).

(** The state [animateSlider] reaches before it tests the throttle, the
    elapsed time it tests and the progress it computes. *)
Definition anchored (ts : Q) (s : State) : State :=
  set_lastFrameTimestamp (Some (init_if_falsy (lastFrameTimestamp s) ts))
    (set_currentTime (Some (init_if_falsy (currentTime s) ts)) s).

Definition elapsed_at (ts : Q) (s : State) : Q :=
  ts - init_if_falsy (lastFrameTimestamp s) ts.

Definition progress_at (cfg : Props) (ts : Q) (s : State) : Q :=
  Qmin ((ts - init_if_falsy (currentTime s) ts) / totalTime cfg) 1.

(** The interval between updates as the specification derives it from a
    frame rate. *)
Definition spec_frameIntervalMs (framesPerSecond : Q) : Q :=
  1000 / framesPerSecond.

(** A frame callback advances progress when it publishes something. *)
Definition advances (cfg : Props) (ts : Q) (s : State) : Prop :=
  published (animateSlider cfg ts s) <> published s.

(** A slider with three slides, 300 pixels in all, used in the examples. *)
Definition example_slider : SliderRef :=
  Some [mkElement 100 20; mkElement 150 30; mkElement 50 10].

Definition example_mount : State := mount example_slider 3 450.

Definition scroll_out : Event := Scroll (mkRect (-50) 40) 800.
Definition scroll_in : Event := Scroll (mkRect 10 40) 800.

(** Every cached value is the one the current state would compute, should
    the cache be used for it. *)
Definition memo_fresh (m : Memo) (s : State) : Prop :=
  (forall d v, heightMemo m = Some (d, v) ->
               same_height_deps d (sliderHeight s) = true ->
               v = height_css (sliderHeight s))
  /\ (forall d v, widthMemo m = Some (d, v) ->
                  same_width_deps d (sliderHeight s, duplicates s) = true ->
                  v = width_css (sliderWidth s) (duplicates s)).

(** A slider with three slides, 600 pixels in all and 20 high, and what it
    becomes when it is rendered with two children, 500 pixels in all and
    20 high, in a viewport 450 pixels wide. *)
Definition wide_mount : State :=
  mount (Some [mkElement 200 20; mkElement 200 20; mkElement 200 20]) 3 450.

Definition wide_shrunk : State :=
  children_changed (Some [mkElement 250 20; mkElement 250 20]) 2 450
                   wide_mount.

Definition example_children : list string := ["a"; "b"; "c"]%string.

(** A string without the separator of the slide keys. *)
Fixpoint dash_free (s : string) : Prop :=
  match s with
  | EmptyString => True
  | String c rest => String c EmptyString <> "-"%string /\ dash_free rest
  end.


(** The state in which the closure queued by [play] calls [animateSlider]
    at [ts]: the queue taken for the frame, the cycle start set to
    [ts - totalTime * lastProgressStep.current]. *)
Definition resumed_at (cfg : Props) (ts : Q) (s : State) : State :=
  set_currentTime (Some (ts - totalTime cfg * translate s))
                  (set_pending [] (play cfg s)).

(** The example slider after frames at 100, 120 (accepted) and 130
    (throttled), rendered again with two children and then hidden. *)
Definition example_rerendered : State :=
  step default_props (VisibilityChange "hidden" (mkRect 10 40) 800)
    (children_changed (Some [mkElement 100 20; mkElement 150 30]) 2 450
       (run default_props [Frame 100; Frame 120; Frame 130] example_mount)).


(** Frames at 100, 133.4 (accepted) and 140 (throttled), a scroll out of
    the viewport and one back in, and the resume callback at 5000. *)
Definition example_resumed : State :=
  run default_props
      [Frame 100; Frame (1334 / 10); Frame 140; scroll_out; scroll_in;
       Frame 5000]
      example_mount.

(** ** The animation driver on binary64 numbers

    The source computes timestamps and progress in binary64; the driver
    above computes them exactly.  What is proved of it below concerns the
    order of the values and the published values as expressions of the
    inputs, which rounding respects; an equality between two values that
    are computed along different paths need not survive rounding.  The
    driver is given a second time here, on primitive floats and cell for
    cell (the layout cells left out), to run the traces on which the two
    differ. *)

Module F64.

Import PrimFloat.
Local Open Scope float_scope.

Definition number : Type := float.

(** [!r.current] for a ref that holds a number, null or undefined. *)
Definition falsy (r : option number) : bool :=
  match r with
  | Some x => (x =? 0) || is_nan x
  | None => true
  end.

(** [Math.min(x, 1)] *)
Definition min_one (x : number) : number :=
  if is_nan x then nan else if (x <? 1) then x else 1.

Inductive Callback : Type :=
| CbAnimate
| CbResume (timeEnlapsed : number).

Record State : Type := mkState {
  translate : number;
  currentTime : option number;
  frameId : option positive;
  lastProgressStep : option number;
  lastFrameTimestamp : option number;
  pending : list (positive * Callback);
  nextHandle : positive;
  published : list number
}.

Definition init_if_falsy (r : option number) (v : number) : number :=
  match r with
  | Some x => if falsy r then v else x
  | None => v
  end.

Definition setTranslate (v : number) (s : State) : State :=
  mkState v (currentTime s) (frameId s) (Some v) (lastFrameTimestamp s)
          (pending s) (nextHandle s) (v :: published s).

Definition schedule (cb : Callback) (s : State) : State :=
  mkState (translate s) (currentTime s) (Some (nextHandle s))
          (lastProgressStep s) (lastFrameTimestamp s)
          (pending s ++ [(nextHandle s, cb)]) (Pos.succ (nextHandle s))
          (published s).

Section Driver.

Variables totalTime fps : number.

Definition animateSlider (timestamp : number) (s : State) : State :=
  let cur := init_if_falsy (currentTime s) timestamp in
  let last := init_if_falsy (lastFrameTimestamp s) timestamp in
  let s := mkState (translate s) (Some cur) (frameId s) (lastProgressStep s)
                   (Some last) (pending s) (nextHandle s) (published s) in
  let timeEnlapsedSinceLastFrame := (timestamp - last) in
  if (fps <? timeEnlapsedSinceLastFrame) then
    let progress := min_one ((timestamp - cur) / totalTime) in
    let s := setTranslate progress s in
    let s := mkState (translate s) (currentTime s) (frameId s)
                     (lastProgressStep s) None (pending s) (nextHandle s)
                     (published s) in
    if (progress <? 1) then schedule CbAnimate s
    else
      let s := mkState (translate s) None (frameId s) (lastProgressStep s)
                       (lastFrameTimestamp s) (pending s) (nextHandle s)
                       (published s) in
      schedule CbAnimate (setTranslate 0 s)
  else schedule CbAnimate s.

Definition pause (s : State) : State :=
  mkState (translate s) (currentTime s) None (lastProgressStep s)
          (lastFrameTimestamp s)
          (match frameId s with
           | Some h => filter (fun p => negb (Pos.eqb (fst p) h)) (pending s)
           | None => pending s
           end)
          (nextHandle s) (published s).

Definition play (s : State) : State :=
  match frameId s with
  | None =>
      let timeEnlapsed :=
        match lastProgressStep s with
        | Some p => (totalTime * p)
        | None => nan
        end in
      schedule (CbResume timeEnlapsed) s
  | Some _ => s
  end.

Definition run_callback (cb : Callback) (timestamp : number) (s : State)
  : State :=
  match cb with
  | CbAnimate => animateSlider timestamp s
  | CbResume timeEnlapsed =>
      animateSlider timestamp
        (mkState (translate s) (Some (timestamp - timeEnlapsed))
                 (frameId s) (lastProgressStep s) (lastFrameTimestamp s)
                 (pending s) (nextHandle s) (published s))
  end.

Definition frame (timestamp : number) (s : State) : State :=
  fold_left (fun s hc => run_callback (snd hc) timestamp s) (pending s)
            (mkState (translate s) (currentTime s) (frameId s)
                     (lastProgressStep s) (lastFrameTimestamp s) []
                     (nextHandle s) (published s)).

End Driver.

(** The animation cells after mount. *)
Definition mounted : State :=
  {| translate := 0; currentTime := None; frameId := Some 1%positive;
     lastProgressStep := Some 0; lastFrameTimestamp := None;
     pending := [(1%positive, CbAnimate)]; nextHandle := 2%positive;
     published := [] |}.

Definition TOTAL_TIME : number := 10000.
Definition FPS : number := (1000 / 60).

(** Frames at 100, 133.4 (accepted; the literal is the quotient 1334 / 10
    rounded) and 140 (throttled), a pause, a play and the resume callback
    at 5000, under the default props. *)
Definition before_pause : State :=
  frame TOTAL_TIME FPS 140
    (frame TOTAL_TIME FPS (1334 / 10) (frame TOTAL_TIME FPS 100 mounted)).

Definition resumed : State :=
  frame TOTAL_TIME FPS 5000 (play TOTAL_TIME (pause before_pause)).

End F64.

(** * Lemmas *)

(** ** Numbers *)

Lemma Qltb_lt (x y : Q) : Js.Qltb x y = true <-> x < y.
Proof.
  unfold Js.Qltb. rewrite negb_true_iff. split; intro H.
  - destruct (Qlt_le_dec x y) as [L | L]; [exact L |].
    apply Qle_bool_iff in L. congruence.
  - apply not_true_is_false. intro L. apply Qle_bool_iff in L. lra.
Qed.

Lemma Qltb_ge (x y : Q) : Js.Qltb x y = false <-> y <= x.
Proof.
  unfold Js.Qltb. rewrite negb_false_iff. apply Qle_bool_iff.
Qed.

Lemma Qeq_bool_false (x y : Q) : ~ x == y -> Qeq_bool x y = false.
Proof.
  intro H. apply not_true_is_false. intro E. apply Qeq_bool_iff in E. auto.
Qed.

Lemma div_fin (x y : Q) : ~ y == 0 -> Js.div (Js.Fin x) (Js.Fin y) = Js.Fin (x / y).
Proof.
  intro H. unfold Js.div. now rewrite (Qeq_bool_false _ _ H).
Qed.

Lemma Qnum_pos (q : Q) : 0 < q -> (0 < Qnum q)%Z.
Proof. unfold Qlt. simpl. lia. Qed.

Lemma parseInt_trunc (q : Q) :
  1 <= q -> q < 1000000000000000000000 ->
  Js.parseInt (Js.Fin q) = Js.Fin (inject_Z (Qfloor q)).
Proof.
  intros H1 H2. unfold Js.parseInt.
  assert (Hq : 0 < q) by lra.
  assert (Ha : Qabs q == q) by (apply Qabs_pos; lra).
  rewrite Qeq_bool_false by lra.
  assert (E1 : Qle_bool (1 # 1000000) (Qabs q) = true).
  { apply Qle_bool_iff. rewrite Ha. lra. }
  assert (E2 : Js.Qltb (Qabs q) 1000000000000000000000 = true).
  { apply Qltb_lt. rewrite Ha. exact H2. }
  rewrite E1, E2. cbn [andb].
  rewrite (Qfloor_comp _ _ Ha).
  pose proof (Qnum_pos q Hq) as Hn.
  rewrite (Z.sgn_pos _ Hn), Z.mul_1_l. reflexivity.
Qed.

Lemma Qfloor_div_half (sw vw : Z) :
  (0 < sw)%Z ->
  Qfloor (inject_Z vw / (inject_Z sw / 2)) = (2 * vw / sw)%Z.
Proof.
  intro H.
  assert (E : inject_Z vw / (inject_Z sw / 2) == (2 * vw) # (Z.to_pos sw)).
  { rewrite (Qmake_Qdiv (2 * vw) (Z.to_pos sw)).
    rewrite Z2Pos.id by exact H. rewrite inject_Z_mult.
    assert (0 < inject_Z sw) by (change 0 with (inject_Z 0); rewrite <- Zlt_Qlt; exact H).
    change (inject_Z 2) with 2. field. lra. }
  rewrite (Qfloor_comp _ _ E). unfold Qfloor.
  rewrite Z2Pos.id by exact H. reflexivity.
Qed.

Lemma duplicateSlides_auto (vw : Z) (s : State) :
  sliderWidth s = Auto ->
  duplicates (duplicateSlides vw s) = DEFAULT_DUPLICATES.
Proof.
  intro H. unfold duplicateSlides. rewrite H. reflexivity.
Qed.

Lemma duplicateSlides_positive_width (sw vw : Z) (s : State) :
  (0 < sw)%Z -> width_in_range vw -> sliderWidth s = Num sw ->
  duplicates (duplicateSlides vw s)
  = Js.Fin (inject_Z (spec_duplicateCount sw vw)).
Proof.
  intros Hpos Hr Hw. unfold duplicateSlides, spec_duplicateCount, width_in_range in *.
  rewrite Hw. cbn [to_number Js.lt].
  assert (Ha : 1 <= inject_Z sw).
  { change 1 with (inject_Z 1). rewrite <- Zle_Qle. lia. }
  assert (Hb : inject_Z vw < 500000000000000000000).
  { change 500000000000000000000 with (inject_Z 500000000000000000000).
    rewrite <- Zlt_Qlt. exact Hr. }
  destruct (Z.ltb_spec sw vw) as [L | L].
  - assert (Hab : inject_Z sw < inject_Z vw) by (rewrite <- Zlt_Qlt; exact L).
    rewrite (proj2 (Qltb_lt _ _) Hab).
    assert (Hh : (1 # 2) <= inject_Z sw / 2) by (apply Qle_shift_div_l; lra).
    assert (Hv : inject_Z sw / 2 < inject_Z vw) by (apply Qlt_shift_div_r; lra).
    rewrite div_fin by lra. rewrite div_fin by lra.
    cbn [duplicates setDuplicates].
    apply parseInt_trunc.
    + apply Qle_shift_div_l; lra.
    + apply Qlt_shift_div_r; lra.
  - assert (Hab : inject_Z vw <= inject_Z sw) by (rewrite <- Zle_Qle; exact L).
    rewrite (proj2 (Qltb_ge _ _) Hab). reflexivity.
Qed.

Lemma spec_duplicateCount_ge_2 (sw vw : Z) :
  (0 < sw)%Z -> (2 <= spec_duplicateCount sw vw)%Z.
Proof.
  intro H. unfold spec_duplicateCount.
  destruct (Z.ltb_spec sw vw) as [L | L]; [| lia].
  rewrite Qfloor_div_half by exact H.
  apply Z.div_le_lower_bound; lia.
Qed.

(** ** The driver and the gate leave the layout alone *)

Ltac split_ifs :=
  repeat match goal with
         | |- context [if ?b then _ else _] => destruct b
         end.

Lemma animateSlider_layout cfg ts s :
  layout (animateSlider cfg ts s) = layout s.
Proof. unfold animateSlider. split_ifs; reflexivity. Qed.

Lemma run_callback_layout cfg cb ts s :
  layout (run_callback cfg cb ts s) = layout s.
Proof.
  destruct cb; cbn [run_callback]; rewrite animateSlider_layout; reflexivity.
Qed.

Lemma frame_layout cfg ts s : layout (frame cfg ts s) = layout s.
Proof.
  unfold frame.
  change (layout s) with (layout (set_pending [] s)).
  generalize (set_pending [] s). generalize (pending s).
  induction l as [| hc l IH]; intro s0; cbn [fold_left].
  - reflexivity.
  - rewrite IH. apply run_callback_layout.
Qed.

Lemma pause_layout s : layout (pause s) = layout s.
Proof. unfold pause. destruct (frameId s); reflexivity. Qed.

Lemma play_layout cfg s : layout (play cfg s) = layout s.
Proof. unfold play. destruct (frameId s); reflexivity. Qed.

Lemma handleViewportState_layout cfg rect ih s :
  layout (handleViewportState cfg rect ih s) = layout s.
Proof.
  unfold handleViewportState.
  destruct (negb _); [apply pause_layout | apply play_layout].
Qed.

Lemma handleVisibilityChange_layout cfg v rect ih s :
  layout (handleVisibilityChange cfg v rect ih s) = layout s.
Proof.
  unfold handleVisibilityChange.
  destruct (_ && _); [rewrite play_layout |];
    destruct (String.eqb v "hidden"); try apply pause_layout; reflexivity.
Qed.

Lemma step_sliderWidth cfg e s : sliderWidth (step cfg e s) = sliderWidth s.
Proof.
  destruct e; cbn [step].
  - pose proof (frame_layout cfg timestamp s) as H. unfold layout in H. congruence.
  - pose proof (handleViewportState_layout cfg rect innerHeight s) as H.
    unfold layout in H. congruence.
  - pose proof (handleVisibilityChange_layout cfg visibilityState rect innerHeight s) as H.
    unfold layout in H. congruence.
  - unfold updateSliderHeight, duplicateSlides. split_ifs; reflexivity.
Qed.

Lemma run_sliderWidth cfg events s :
  sliderWidth (run cfg events s) = sliderWidth s.
Proof.
  unfold run. revert s. induction events as [| e es IH]; intro s; cbn [fold_left].
  - reflexivity.
  - rewrite IH. apply step_sliderWidth.
Qed.

Lemma mount_sliderWidth slider n iw :
  sliderWidth (mount slider n iw) = Num (totalWidth (getSlidesData slider n)).
Proof.
  unfold mount, duplicateSlides. split_ifs; reflexivity.
Qed.

Lemma count_spec (sw vw : Z) (s : State) :
  (0 < sw)%Z -> width_in_range vw -> sliderWidth s = Num sw ->
  count_at_least_two (duplicates (duplicateSlides vw s)).
Proof.
  intros Hp Hr Hw. exists (spec_duplicateCount sw vw). split.
  - now apply duplicateSlides_positive_width.
  - now apply spec_duplicateCount_ge_2.
Qed.

Lemma run_count cfg events (sw : Z) s :
  (0 < sw)%Z -> sliderWidth s = Num sw ->
  Forall resize_in_range events ->
  count_at_least_two (duplicates s) ->
  count_at_least_two (duplicates (run cfg events s)).
Proof.
  intros Hp. unfold run. revert s.
  induction events as [| e es IH]; intros s Hw Hr Hc; cbn [fold_left].
  - exact Hc.
  - inversion Hr as [| e' es' He Hes]; subst.
    apply IH; [rewrite step_sliderWidth; exact Hw | exact Hes |].
    destruct e; cbn [step].
    + pose proof (frame_layout cfg timestamp s) as H. unfold layout in H.
      replace (duplicates (frame cfg timestamp s)) with (duplicates s) by congruence.
      exact Hc.
    + pose proof (handleViewportState_layout cfg rect innerHeight s) as H.
      unfold layout in H.
      replace (duplicates (handleViewportState cfg rect innerHeight s))
        with (duplicates s) by congruence.
      exact Hc.
    + pose proof (handleVisibilityChange_layout cfg visibilityState rect innerHeight s) as H.
      unfold layout in H.
      replace (duplicates (handleVisibilityChange cfg visibilityState rect innerHeight s))
        with (duplicates s) by congruence.
      exact Hc.
    + unfold updateSliderHeight. cbn [duplicates setSliderHeight].
      apply (count_spec sw); assumption.
Qed.

Lemma duplicateSlides_idem (vw : Z) (s : State) :
  duplicateSlides vw (duplicateSlides vw s) = duplicateSlides vw s.
Proof.
  unfold duplicateSlides.
  destruct (Js.lt (to_number (sliderWidth s)) (Js.Fin (inject_Z vw))) eqn:E;
    cbn [sliderWidth setDuplicates]; rewrite E; reflexivity.
Qed.

(** ** One frame callback, case by case *)

Lemma animateSlider_cases cfg ts s :
  (elapsed_at ts s <= fps cfg
   /\ animateSlider cfg ts s = schedule CbAnimate (anchored ts s))
  \/ (fps cfg < elapsed_at ts s /\ progress_at cfg ts s < 1
      /\ animateSlider cfg ts s
         = schedule CbAnimate
             (set_lastFrameTimestamp None
                (setTranslate (progress_at cfg ts s) (anchored ts s))))
  \/ (fps cfg < elapsed_at ts s /\ 1 <= progress_at cfg ts s
      /\ animateSlider cfg ts s
         = schedule CbAnimate
             (setTranslate 0
                (set_currentTime None
                   (set_lastFrameTimestamp None
                      (setTranslate (progress_at cfg ts s) (anchored ts s)))))).
Proof.
  unfold animateSlider, elapsed_at, progress_at, anchored.
  cbn [lastFrameTimestamp set_currentTime].
  destruct (Js.Qltb (fps cfg) (ts - init_if_falsy (lastFrameTimestamp s) ts))
    eqn:E.
  - apply Qltb_lt in E.
    destruct (Js.Qltb
                (Qmin ((ts - init_if_falsy (currentTime s) ts) / totalTime cfg) 1)
                1) eqn:P.
    + apply Qltb_lt in P. right. left. auto.
    + apply Qltb_ge in P. right. right. auto.
  - apply Qltb_ge in E. left. auto.
Qed.

(** Every branch ends by queueing [animateSlider] under a fresh handle. *)
Lemma animateSlider_queue cfg ts s :
  frameId (animateSlider cfg ts s) = Some (nextHandle s)
  /\ pending (animateSlider cfg ts s)
     = pending s ++ [(nextHandle s, CbAnimate)].
Proof.
  destruct (animateSlider_cases cfg ts s) as [[_ E] | [[_ [_ E]] | [_ [_ E]]]];
    rewrite E; split; reflexivity.
Qed.

Lemma frame_single cfg ts s h cb :
  pending s = [(h, cb)] ->
  frame cfg ts s = run_callback cfg cb ts (set_pending [] s).
Proof. intro H. unfold frame. rewrite H. reflexivity. Qed.

Lemma frame_idle cfg ts s :
  pending s = [] -> frame cfg ts s = set_pending [] s.
Proof. intro H. unfold frame. rewrite H. reflexivity. Qed.

Lemma run_callback_queue cfg cb ts s :
  pending s = [] ->
  frameId (run_callback cfg cb ts s) = Some (nextHandle s)
  /\ pending (run_callback cfg cb ts s) = [(nextHandle s, CbAnimate)].
Proof.
  intro H. destruct cb; cbn [run_callback].
  - destruct (animateSlider_queue cfg ts s) as [F P]. rewrite F, P, H. auto.
  - match goal with
    | |- context [animateSlider cfg ts ?s0] =>
        destruct (animateSlider_queue cfg ts s0) as [F P]
    end.
    rewrite F, P. cbn [pending nextHandle set_currentTime]. rewrite H. auto.
Qed.

(** ** The queue invariant *)

Lemma sched_ok_frame cfg ts s : sched_ok cfg s -> sched_ok cfg (frame cfg ts s).
Proof.
  unfold sched_ok. intro H. destruct (frameId s) as [h |] eqn:F.
  - destruct H as [cb [P _]]. rewrite (frame_single cfg ts s h cb P).
    destruct (run_callback_queue cfg cb ts (set_pending [] s) eq_refl) as [F' P'].
    rewrite F'. exists CbAnimate. split; [exact P' | exact I].
  - rewrite (frame_idle cfg ts s H). cbn [frameId set_pending pending].
    rewrite F. reflexivity.
Qed.

Lemma sched_ok_pause cfg s : sched_ok cfg s -> sched_ok cfg (pause s).
Proof.
  unfold sched_ok, pause. intro H. cbn [frameId set_frameId].
  destruct (frameId s) as [h |].
  - destruct H as [cb [P _]]. cbn [cancelAnimationFrame pending set_frameId set_pending].
    rewrite P. cbn [filter fst]. rewrite Pos.eqb_refl. reflexivity.
  - exact H.
Qed.

Lemma sched_ok_play cfg s : sched_ok cfg s -> sched_ok cfg (play cfg s).
Proof.
  unfold sched_ok, play. intro H. destruct (frameId s) as [h |] eqn:F.
  - rewrite F. exact H.
  - cbn [schedule requestAnimationFrame frameId set_frameId pending].
    rewrite H. eexists. split; [reflexivity |]. reflexivity.
Qed.

Lemma sched_ok_step cfg e s : sched_ok cfg s -> sched_ok cfg (step cfg e s).
Proof.
  intro H. destruct e; cbn [step].
  - now apply sched_ok_frame.
  - unfold handleViewportState. destruct (negb _).
    + now apply sched_ok_pause.
    + now apply sched_ok_play.
  - unfold handleVisibilityChange.
    destruct (String.eqb visibilityState "hidden");
      destruct (_ && _);
      repeat first [apply sched_ok_play | apply sched_ok_pause]; exact H.
  - unfold updateSliderHeight, duplicateSlides, sched_ok in *.
    split_ifs; exact H.
Qed.

Lemma sched_ok_mount cfg slider n iw : sched_ok cfg (mount slider n iw).
Proof.
  unfold mount, duplicateSlides, sched_ok. split_ifs.
  all: cbn; exists CbAnimate; split; [reflexivity | exact I].
Qed.

Lemma sched_ok_run cfg events s :
  sched_ok cfg s -> sched_ok cfg (run cfg events s).
Proof.
  unfold run. revert s. induction events as [| e es IH]; intros s H; cbn [fold_left].
  - exact H.
  - apply IH. now apply sched_ok_step.
Qed.

(** ** The timing invariant *)

Lemma scale_le (T a b : Q) : 0 < T -> a <= b / T -> T * a <= b.
Proof.
  intros HT H.
  assert (E : T * (b / T) == b) by (apply Qmult_div_r; lra).
  rewrite <- E. apply Qmult_le_l; assumption.
Qed.

Lemma le_div (T a b : Q) : 0 < T -> T * a <= b -> a <= b / T.
Proof.
  intros HT H. apply Qle_shift_div_l; [exact HT |].
  rewrite Qmult_comm. exact H.
Qed.

Lemma init_if_falsy_pos (c v : Q) : 0 < c -> init_if_falsy (Some c) v = c.
Proof.
  intro H. unfold init_if_falsy. rewrite Qeq_bool_false by lra. reflexivity.
Qed.

Lemma origin_ok cfg now ts s :
  time_ok cfg now s -> 0 < ts -> now <= ts ->
  0 < init_if_falsy (currentTime s) ts
  /\ init_if_falsy (currentTime s) ts + totalTime cfg * translate s <= ts.
Proof.
  intros [_ [_ [Hc _]]] Hts Hnow.
  destruct (currentTime s) as [c |].
  - destruct Hc as [Hc1 Hc2]. rewrite init_if_falsy_pos by exact Hc1.
    split; [exact Hc1 | lra].
  - cbn [init_if_falsy]. split; [exact Hts |]. rewrite Hc. lra.
Qed.

Lemma progress_bounds cfg ts s :
  0 < totalTime cfg ->
  init_if_falsy (currentTime s) ts + totalTime cfg * translate s <= ts ->
  translate s < 1 ->
  translate s <= progress_at cfg ts s
  /\ progress_at cfg ts s <= 1
  /\ init_if_falsy (currentTime s) ts
     + totalTime cfg * progress_at cfg ts s <= ts.
Proof.
  intros HT Ho Htr. unfold progress_at.
  set (o := init_if_falsy (currentTime s) ts) in *.
  set (x := (ts - o) / totalTime cfg).
  assert (Hx : translate s <= x) by (apply le_div; [exact HT | lra]).
  split; [| split].
  - apply Q.min_glb; lra.
  - apply Q.le_min_r.
  - assert (Hp : totalTime cfg * Qmin x 1 <= ts - o).
    { apply scale_le; [exact HT | apply Q.le_min_l]. }
    lra.
Qed.

Lemma log_ok_push (p : Q) (l : list Q) :
  log_ok l -> 0 <= p <= 1 -> hd 0 l <= p -> log_ok (p :: l).
Proof.
  intros Hl Hp Hh. cbn [log_ok]. split; [exact Hp |]. split; [| exact Hl].
  destruct l as [| a l']; [exact I |]. left. exact Hh.
Qed.

Lemma animateSlider_time_ok cfg now ts s :
  0 < totalTime cfg -> 0 < ts -> now <= ts ->
  time_ok cfg now s ->
  time_ok cfg ts (animateSlider cfg ts s)
  /\ exists new, published (animateSlider cfg ts s) = new ++ published s
                 /\ batch_ok (translate s) new.
Proof.
  intros HT Hts Hnow Hinv.
  destruct (origin_ok cfg now ts s Hinv Hts Hnow) as [Ho1 Ho2].
  destruct Hinv as [Hl [Hr [_ [Hlog Hhd]]]].
  destruct (progress_bounds cfg ts s HT Ho2 (proj2 Hr)) as [Hp1 [Hp2 Hp3]].
  assert (Hpush : log_ok (progress_at cfg ts s :: published s)).
  { apply log_ok_push; [exact Hlog | lra | rewrite <- Hhd; exact Hp1]. }
  destruct (animateSlider_cases cfg ts s) as [[_ E] | [[_ [P E]] | [_ [P E]]]];
    rewrite E; unfold time_ok;
    cbn [schedule requestAnimationFrame anchored set_frameId
         set_lastFrameTimestamp set_currentTime setTranslate
         lastProgressStep translate currentTime published hd].
  - split.
    + split; [exact Hl |]. split; [exact Hr |]. split; [split; assumption |].
      split; [exact Hlog | exact Hhd].
    + exists []. split; [reflexivity | left; reflexivity].
  - split.
    + split; [reflexivity |]. split; [lra |]. split; [split; assumption |].
      split; [exact Hpush | reflexivity].
    + exists [progress_at cfg ts s]. split; [reflexivity |].
      right. left. exists (progress_at cfg ts s). auto.
  - split.
    + split; [reflexivity |]. split; [lra |]. split; [reflexivity |].
      split; [| reflexivity].
      cbn [log_ok]. split; [lra |]. split; [| exact Hpush].
      right. split; [apply Qle_antisym; assumption | reflexivity].
    + exists [0; progress_at cfg ts s]. split; [reflexivity |].
      right. right. exists (progress_at cfg ts s).
      split; [reflexivity | apply Qle_antisym; assumption].
Qed.

Lemma time_ok_later cfg now now' s :
  time_ok cfg now s -> now <= now' -> time_ok cfg now' s.
Proof.
  intros [Hl [Hr [Hc Hrest]]] Hle. split; [exact Hl |]. split; [exact Hr |].
  split; [| exact Hrest].
  destruct (currentTime s); [| exact Hc]. split; [apply Hc | lra].
Qed.

Lemma resume_anchor_ok cfg now ts s :
  time_ok cfg now s -> 0 < ts -> now <= ts ->
  time_ok cfg ts
    (set_currentTime (Some (ts - totalTime cfg * translate s))
                     (set_pending [] s)).
Proof.
  intros [Hl [Hr [Hc Hrest]]] Hts Hle. split; [exact Hl |]. split; [exact Hr |].
  split; [| exact Hrest].
  cbn [currentTime set_currentTime translate set_pending].
  destruct (currentTime s).
  - lra.
  - rewrite Hc. lra.
Qed.

Lemma frame_time_ok cfg now ts s :
  0 < totalTime cfg -> 0 < ts -> now <= ts ->
  sched_ok cfg s -> time_ok cfg now s ->
  time_ok cfg ts (frame cfg ts s)
  /\ exists new, published (frame cfg ts s) = new ++ published s
                 /\ batch_ok (translate s) new.
Proof.
  intros HT Hts Hle Hs Ht. unfold sched_ok in Hs.
  destruct (frameId s) as [h |].
  - destruct Hs as [cb [P C]]. rewrite (frame_single cfg ts s h cb P).
    destruct cb as [| e]; cbn [run_callback].
    + apply (animateSlider_time_ok cfg now ts (set_pending [] s)); assumption.
    + cbn [callback_ok] in C.
      rewrite (proj1 Ht) in C. cbn [option_map] in C. subst e.
      cbn [option_map].
      apply (animateSlider_time_ok cfg ts ts
               (set_currentTime (Some (ts - totalTime cfg * translate s))
                                (set_pending [] s)));
        try assumption; [lra |].
      now apply (resume_anchor_ok cfg now).
  - rewrite (frame_idle cfg ts s Hs). split.
    + apply (time_ok_later cfg now); assumption.
    + exists []. split; [reflexivity | left; reflexivity].
Qed.

Lemma time_ok_pause cfg now s : time_ok cfg now s -> time_ok cfg now (pause s).
Proof. unfold pause. destruct (frameId s); intro H; exact H. Qed.

Lemma time_ok_play cfg now s : time_ok cfg now s -> time_ok cfg now (play cfg s).
Proof. unfold play. destruct (frameId s); intro H; exact H. Qed.

Lemma time_ok_gate cfg now e s :
  (forall t, e <> Frame t) -> time_ok cfg now s -> time_ok cfg now (step cfg e s).
Proof.
  intros Hne H. destruct e; cbn [step].
  - now elim (Hne timestamp).
  - unfold handleViewportState. destruct (negb _).
    + now apply time_ok_pause.
    + now apply time_ok_play.
  - unfold handleVisibilityChange.
    destruct (String.eqb visibilityState "hidden");
      destruct (_ && _);
      repeat first [apply time_ok_play | apply time_ok_pause]; exact H.
  - unfold updateSliderHeight, duplicateSlides. split_ifs; exact H.
Qed.

Lemma time_ok_mount cfg slider n iw : time_ok cfg 0 (mount slider n iw).
Proof.
  unfold mount, duplicateSlides, time_ok. split_ifs.
  all: cbn; repeat split; try reflexivity; try lra.
Qed.

Lemma clock_ge now events : timed now events -> now <= clock now events.
Proof.
  revert now. induction events as [| e es IH]; intros now H; cbn [clock].
  - lra.
  - destruct e; cbn [timed] in H; try (apply IH; exact H).
    destruct H as [_ [H1 H2]]. specialize (IH _ H2). lra.
Qed.

(** Both invariants hold along every timed run. *)
Lemma run_inv cfg now events s :
  0 < totalTime cfg -> timed now events ->
  sched_ok cfg s -> time_ok cfg now s ->
  sched_ok cfg (run cfg events s)
  /\ time_ok cfg (clock now events) (run cfg events s).
Proof.
  intros HT. unfold run. revert now s.
  induction events as [| e es IH]; intros now s Htimed Hs Ht;
    cbn [fold_left clock].
  - split; assumption.
  - pose proof (sched_ok_step cfg e s Hs) as Hs'.
    destruct e; cbn [timed] in Htimed;
      try (apply IH; [exact Htimed | exact Hs' |];
           apply time_ok_gate; [intros t; discriminate | exact Ht]).
    destruct Htimed as [H0 [H1 H2]].
    apply IH; [exact H2 | exact Hs' |].
    cbn [step]. now apply (frame_time_ok cfg now).
Qed.

Lemma mount_run_inv cfg slider n iw events :
  0 < totalTime cfg -> timed 0 events ->
  sched_ok cfg (run cfg events (mount slider n iw))
  /\ time_ok cfg (clock 0 events) (run cfg events (mount slider n iw)).
Proof.
  intros HT Htimed. apply run_inv; try assumption.
  - apply sched_ok_mount.
  - apply time_ok_mount.
Qed.

(** ** Publishing *)

Lemma animateSlider_published cfg ts s :
  (elapsed_at ts s <= fps cfg
   /\ published (animateSlider cfg ts s) = published s
   /\ translate (animateSlider cfg ts s) = translate s
   /\ currentTime (animateSlider cfg ts s)
      = Some (init_if_falsy (currentTime s) ts)
   /\ lastFrameTimestamp (animateSlider cfg ts s)
      = Some (init_if_falsy (lastFrameTimestamp s) ts))
  \/ (fps cfg < elapsed_at ts s
      /\ lastFrameTimestamp (animateSlider cfg ts s) = None
      /\ ((progress_at cfg ts s < 1
           /\ published (animateSlider cfg ts s)
              = progress_at cfg ts s :: published s
           /\ currentTime (animateSlider cfg ts s)
              = Some (init_if_falsy (currentTime s) ts))
          \/ (1 <= progress_at cfg ts s
              /\ published (animateSlider cfg ts s)
                 = 0 :: progress_at cfg ts s :: published s))).
Proof.
  destruct (animateSlider_cases cfg ts s) as [[H E] | [[H [P E]] | [H [P E]]]];
    rewrite E.
  - left. repeat split; assumption.
  - right. split; [exact H |]. split; [reflexivity |]. left. repeat split. exact P.
  - right. split; [exact H |]. split; [reflexivity |]. right. split; [exact P |].
    reflexivity.
Qed.

Lemma cons_neq {A} (x : A) (l : list A) : x :: l <> l.
Proof.
  intro H. apply (f_equal (@List.length A)) in H. cbn in H. lia.
Qed.

Lemma cons2_neq {A} (x y : A) (l : list A) : x :: y :: l <> l.
Proof.
  intro H. apply (f_equal (@List.length A)) in H. cbn in H. lia.
Qed.

Lemma advances_iff cfg ts s : advances cfg ts s <-> fps cfg < elapsed_at ts s.
Proof.
  unfold advances.
  destruct (animateSlider_published cfg ts s)
    as [[H [E _]] | [H [_ [[_ [E _]] | [_ E]]]]]; rewrite E; split; intro G.
  - now elim G.
  - lra.
  - exact H.
  - apply cons_neq.
  - exact H.
  - apply cons2_neq.
Qed.

(** The values published along a run only accumulate. *)
Lemma run_callback_grows cfg cb ts s :
  exists new, published (run_callback cfg cb ts s) = new ++ published s.
Proof.
  destruct cb; cbn [run_callback];
    match goal with
    | |- context [animateSlider cfg ts ?s0] =>
        destruct (animateSlider_published cfg ts s0)
          as [[_ [E _]] | [_ [_ [[_ [E _]] | [_ E]]]]]
    end; rewrite E.
  all: first [ now exists [] | now eexists [_] | now eexists [_; _] ].
Qed.

Lemma frame_grows cfg ts s :
  exists new, published (frame cfg ts s) = new ++ published s.
Proof.
  unfold frame.
  change (published s) with (published (set_pending [] s)).
  generalize (set_pending [] s). generalize (pending s).
  induction l as [| hc l IH]; intro s0; cbn [fold_left].
  - now exists [].
  - destruct (IH (run_callback cfg (snd hc) ts s0)) as [n1 E1].
    destruct (run_callback_grows cfg (snd hc) ts s0) as [n2 E2].
    exists (n1 ++ n2). rewrite E1, E2. apply app_assoc.
Qed.

Lemma step_grows cfg e s :
  exists new, published (step cfg e s) = new ++ published s.
Proof.
  destruct e; cbn [step].
  - apply frame_grows.
  - exists []. unfold handleViewportState, pause, play.
    destruct (negb _); destruct (frameId s); reflexivity.
  - exists []. unfold handleVisibilityChange, pause, play.
    destruct (String.eqb visibilityState "hidden"); destruct (_ && _);
      cbn [frameId set_frameId]; destruct (frameId s); reflexivity.
  - exists []. unfold updateSliderHeight, duplicateSlides. split_ifs; reflexivity.
Qed.

Lemma run_grows cfg events s :
  exists new, published (run cfg events s) = new ++ published s.
Proof.
  unfold run. revert s. induction events as [| e es IH]; intro s; cbn [fold_left].
  - now exists [].
  - destruct (IH (step cfg e s)) as [n1 E1].
    destruct (step_grows cfg e s) as [n2 E2].
    exists (n1 ++ n2). rewrite E1, E2. apply app_assoc.
Qed.

Lemma app_same_nil {A} (n : list A) (l : list A) : n ++ l = l -> n = [].
Proof.
  intro H. apply (f_equal (@List.length A)) in H. rewrite length_app in H.
  destruct n; [reflexivity | cbn in H; lia].
Qed.

(** ** Resuming *)

Lemma Qmin_one_compat (x y : Q) : x == y -> Qmin x 1 == Qmin y 1.
Proof.
  intro E.
  destruct (Q.min_spec x 1) as [[H1 E1] | [H1 E1]];
    destruct (Q.min_spec y 1) as [[H2 E2] | [H2 E2]];
    rewrite E1, E2; lra.
Qed.

Lemma Qmin_below_one (x : Q) : x < 1 -> Qmin x 1 == x.
Proof.
  intro H. destruct (Q.min_spec x 1) as [[_ E] | [H1 _]]; [exact E | lra].
Qed.

Lemma play_paused cfg s :
  frameId s = None ->
  play cfg s
  = schedule
      (CbResume (option_map (fun p => totalTime cfg * p) (lastProgressStep s)))
      s.
Proof. intro H. unfold play. rewrite H. reflexivity. Qed.

(** The first callback of a resumed chain: the cycle start becomes the
    frame's timestamp minus the time already played, and on exact
    rationals the only value it can publish equals the progress that was
    retained. *)
Lemma resume_first_callback cfg now ts s :
  0 < totalTime cfg -> 0 < ts -> now <= ts ->
  sched_ok cfg s -> time_ok cfg now s -> frameId s = None ->
  (exists c, currentTime (frame cfg ts (play cfg s)) = Some c
             /\ c == ts - totalTime cfg * translate s /\ 0 < c)
  /\ (published (frame cfg ts (play cfg s)) = published s
      /\ translate (frame cfg ts (play cfg s)) = translate s
      \/ exists v, published (frame cfg ts (play cfg s)) = v :: published s
                   /\ translate (frame cfg ts (play cfg s)) = v
                   /\ v == translate s)
  /\ (exists h, frameId (frame cfg ts (play cfg s)) = Some h
                /\ pending (frame cfg ts (play cfg s)) = [(h, CbAnimate)]).
Proof.
  intros HT Hts Hle Hs Ht Hf.
  unfold sched_ok in Hs. rewrite Hf in Hs.
  pose proof (resume_anchor_ok cfg now ts s Ht Hts Hle) as Ha.
  destruct Ht as [Hl [Hr _]].
  rewrite (play_paused cfg s Hf), Hl. cbn [option_map].
  rewrite (frame_single cfg ts _ (nextHandle s)
             (CbResume (Some (totalTime cfg * translate s))))
    by (cbn [schedule requestAnimationFrame pending set_frameId];
        rewrite Hs; reflexivity).
  cbn [run_callback option_map].
  set (c0 := ts - totalTime cfg * translate s) in *.
  match goal with
  | |- context [animateSlider cfg ts ?x] => set (s0 := x) in *
  end.
  assert (Hc0 : 0 < c0).
  { destruct Ha as [_ [_ [Hc _]]]. cbn [currentTime set_currentTime] in Hc.
    apply Hc. }
  assert (Hcur : init_if_falsy (currentTime s0) ts = c0).
  { subst s0. cbn [currentTime set_currentTime]. now apply init_if_falsy_pos. }
  assert (Hv : progress_at cfg ts s0 == translate s).
  { unfold progress_at. rewrite Hcur.
    assert (E : (ts - c0) / totalTime cfg == translate s).
    { subst c0. field. lra. }
    rewrite (Qmin_one_compat _ _ E). apply Qmin_below_one. apply Hr. }
  assert (Hq : exists h, frameId (animateSlider cfg ts s0) = Some h
                         /\ pending (animateSlider cfg ts s0) = [(h, CbAnimate)]).
  { destruct (animateSlider_queue cfg ts s0) as [F P].
    exists (nextHandle s0). split; [exact F | exact P]. }
  destruct (animateSlider_published cfg ts s0)
    as [[_ [E [Etr [Ec _]]]] | [_ [_ [[_ [E Ec]] | [P _]]]]].
  - split; [| split; [| exact Hq]].
    + exists c0. rewrite Ec, Hcur.
      split; [reflexivity | split; [reflexivity | exact Hc0]].
    + left. rewrite E, Etr. split; reflexivity.
  - split; [| split; [| exact Hq]].
    + exists c0. rewrite Ec, Hcur.
      split; [reflexivity | split; [reflexivity | exact Hc0]].
    + right. exists (progress_at cfg ts s0). split; [rewrite E; reflexivity |].
      split; [| exact Hv].
      destruct (animateSlider_cases cfg ts s0)
        as [[_ E'] | [[_ [_ E']] | [_ [P' _]]]].
      * rewrite E' in E. cbn in E. now elim (cons_neq _ _ (eq_sym E)).
      * rewrite E'. reflexivity.
      * lra.
  - rewrite Hv in P. lra.
Qed.

(** Frames that publish nothing leave the cycle start and the progress
    where they are. *)
Lemma quiet_frame cfg ts s c h :
  currentTime s = Some c -> 0 < c ->
  frameId s = Some h -> pending s = [(h, CbAnimate)] ->
  published (frame cfg ts s) = published s ->
  currentTime (frame cfg ts s) = Some c
  /\ translate (frame cfg ts s) = translate s
  /\ exists h', frameId (frame cfg ts s) = Some h'
                /\ pending (frame cfg ts s) = [(h', CbAnimate)].
Proof.
  intros Hc Hpos Hf Hp Hq.
  rewrite (frame_single cfg ts s h CbAnimate Hp) in *. cbn [run_callback] in *.
  destruct (animateSlider_queue cfg ts (set_pending [] s)) as [F P].
  destruct (animateSlider_published cfg ts (set_pending [] s))
    as [[_ [_ [Etr [Ec _]]]] | [_ [_ [[_ [E _]] | [_ E]]]]].
  - split; [| split].
    + rewrite Ec. cbn [currentTime set_pending]. rewrite Hc.
      now rewrite init_if_falsy_pos.
    + exact Etr.
    + eexists. split; [exact F | exact P].
  - rewrite E in Hq. now elim (cons_neq _ _ Hq).
  - rewrite E in Hq. now elim (cons2_neq _ _ _ Hq).
Qed.

Lemma quiet_frames cfg later s c h :
  currentTime s = Some c -> 0 < c ->
  frameId s = Some h -> pending s = [(h, CbAnimate)] ->
  published (run cfg (map Frame later) s) = published s ->
  currentTime (run cfg (map Frame later) s) = Some c
  /\ translate (run cfg (map Frame later) s) = translate s
  /\ exists h', frameId (run cfg (map Frame later) s) = Some h'
                /\ pending (run cfg (map Frame later) s) = [(h', CbAnimate)].
Proof.
  revert s h. induction later as [| t rest IH]; intros s h Hc Hpos Hf Hp Hq.
  - cbn. repeat split; try assumption. exists h. split; assumption.
  - change (run cfg (map Frame (t :: rest)) s)
      with (run cfg (map Frame rest) (frame cfg t s)) in *.
    destruct (run_grows cfg (map Frame rest) (frame cfg t s)) as [n1 E1].
    destruct (frame_grows cfg t s) as [n2 E2].
    assert (Hn : n1 ++ n2 = []).
    { apply (app_same_nil _ (published s)).
      rewrite <- app_assoc, <- E2, <- E1. exact Hq. }
    apply app_eq_nil in Hn. destruct Hn as [Hn1 Hn2]. subst n1 n2.
    cbn [app] in E1, E2.
    destruct (quiet_frame cfg t s c h Hc Hpos Hf Hp E2) as [Hc' [Htr' [h' [Hf' Hp']]]].
    destruct (IH (frame cfg t s) h' Hc' Hpos Hf' Hp' E1) as [A [B C]].
    split; [exact A |]. split; [congruence | exact C].
Qed.


(** The frame after a play in a paused state runs the resume closure and
    nothing else: [animateSlider] at the frame's timestamp, with the cycle
    start set from the saved progress.  The throttle sees what it saw
    before the play. *)
Lemma resume_callback cfg ts s :
  sched_ok cfg s -> lastProgressStep s = Some (translate s) ->
  frameId s = None ->
  frame cfg ts (play cfg s) = animateSlider cfg ts (resumed_at cfg ts s)
  /\ elapsed_at ts (resumed_at cfg ts s) = elapsed_at ts s
  /\ published (resumed_at cfg ts s) = published s
  /\ pending (resumed_at cfg ts s) = [].
Proof.
  intros Hs Hl Hf. unfold sched_ok in Hs. rewrite Hf in Hs.
  unfold resumed_at. rewrite (play_paused cfg s Hf), Hl. cbn [option_map].
  split; [| split; [| split]]; try reflexivity.
  rewrite (frame_single cfg ts _ (nextHandle s)
             (CbResume (Some (totalTime cfg * translate s))))
    by (cbn [schedule requestAnimationFrame pending set_frameId];
        rewrite Hs; reflexivity).
  reflexivity.
Qed.

(** What the resume closure publishes: nothing when the throttle holds it
    back; otherwise the progress [animateSlider] computes from the cycle
    start it was just given, followed by 0 when that progress is 1. *)
Lemma resume_published cfg ts s :
  sched_ok cfg s -> lastProgressStep s = Some (translate s) ->
  frameId s = None ->
  (elapsed_at ts s <= fps cfg ->
   published (frame cfg ts (play cfg s)) = published s)
  /\ (fps cfg < elapsed_at ts s ->
      published (frame cfg ts (play cfg s))
      = progress_at cfg ts (resumed_at cfg ts s) :: published s
      \/ published (frame cfg ts (play cfg s))
         = 0 :: progress_at cfg ts (resumed_at cfg ts s) :: published s).
Proof.
  intros Hs Hl Hf.
  destruct (resume_callback cfg ts s Hs Hl Hf) as [E [He [Hp _]]].
  rewrite E.
  destruct (animateSlider_published cfg ts (resumed_at cfg ts s))
    as [[H [P _]] | [H [_ [[_ [P _]] | [_ P]]]]];
    rewrite He in H; rewrite P, Hp; split; intro H'; try lra; auto.
Qed.

(** The progress computed at a later timestamp from the same cell is not
    smaller; with the cell unset or 0 it is computed from the timestamp
    itself and is 0. *)
Lemma progress_at_mono cfg (t t' : Q) (s : State) :
  0 < totalTime cfg -> t <= t' ->
  progress_at cfg t s <= progress_at cfg t' s.
Proof.
  intros HT Hle. unfold progress_at.
  assert (H : (t - init_if_falsy (currentTime s) t) / totalTime cfg
              <= (t' - init_if_falsy (currentTime s) t') / totalTime cfg).
  { unfold Qdiv. apply Qmult_le_compat_r;
      [| apply Qlt_le_weak, Qinv_lt_0_compat, HT].
    unfold init_if_falsy. destruct (currentTime s) as [c |]; [| lra].
    destruct (Qeq_bool c 0); lra. }
  apply Q.min_glb; [| apply Q.le_min_r].
  eapply Qle_trans; [apply Q.le_min_l | exact H].
Qed.

(** ** The renderer and the measurements *)

Lemma useMemo_fresh {D V} (same : D -> D -> bool) (cell : option (D * V))
      (deps : D) (compute : unit -> V) :
  (forall d v, cell = Some (d, v) -> same d deps = true -> v = compute tt) ->
  fst (useMemo same cell deps compute) = compute tt
  /\ exists d, snd (useMemo same cell deps compute) = Some (d, compute tt).
Proof.
  intro H. unfold useMemo. destruct cell as [[d v] |].
  - destruct (same d deps) eqn:E; cbn [fst snd].
    + rewrite (H d v eq_refl E). split; [reflexivity | now exists d].
    + split; [reflexivity | now exists deps].
  - cbn [fst snd]. split; [reflexivity | now exists deps].
Qed.

Lemma array_length_of_nat (count : nat) :
  (Z.of_nat count < 2 ^ 32)%Z ->
  Js.array_length (Js.Fin (inject_Z (Z.of_nat count))) = Some count.
Proof.
  intro H. unfold Js.array_length. rewrite Qfloor_Z.
  rewrite (proj2 (Qeq_bool_iff _ _) (Qeq_refl _)).
  rewrite (proj2 (Z.leb_le _ _) (Nat2Z.is_nonneg count)).
  rewrite (proj2 (Z.ltb_lt _ _) H). cbn [andb]. now rewrite Nat2Z.id.
Qed.

Lemma combine_seq_snd {A} (l : list A) (start : nat) :
  map snd (combine (seq start (List.length l)) l) = l.
Proof.
  revert start. induction l as [| x l IH]; intro start; cbn.
  - reflexivity.
  - now rewrite IH.
Qed.

Lemma combine_seq_fst {A} (l : list A) (start : nat) :
  map fst (combine (seq start (List.length l)) l) = seq start (List.length l).
Proof.
  revert start. induction l as [| x l IH]; intro start; cbn.
  - reflexivity.
  - now rewrite IH.
Qed.

Lemma map_const_seq {A} (c : A) (start n : nat) :
  map (fun _ => c) (seq start n) = repeat c n.
Proof.
  revert start. induction n as [| n IH]; intro start; cbn.
  - reflexivity.
  - now rewrite IH.
Qed.

Lemma map_const_length {A B} (c : B) (l : list A) :
  map (fun _ => c) l = repeat c (List.length l).
Proof.
  induction l as [| x l IH]; cbn; [reflexivity | now rewrite IH].
Qed.

Lemma fold_max_push (a b : Z) (l : list Z) :
  fold_right Z.max (Z.max a b) l = Z.max b (fold_right Z.max a l).
Proof.
  induction l as [| x l IH]; cbn.
  - apply Z.max_comm.
  - rewrite IH. lia.
Qed.

Lemma maxHeight_fold (data : list SlideData) :
  maxHeight data = fold_right Z.max 0%Z (map height data).
Proof.
  unfold maxHeight. generalize 0%Z.
  induction data as [| d data IH]; intro a; cbn [fold_left map fold_right].
  - reflexivity.
  - rewrite IH.
    replace (if (a >? height d)%Z then a else height d)
      with (Z.max a (height d)).
    + apply fold_max_push.
    + destruct (Z.gtb_spec a (height d)); lia.
Qed.

Lemma fold_add_push (a b : Z) (l : list Z) :
  fold_right Z.add (a + b)%Z l = (b + fold_right Z.add a l)%Z.
Proof.
  induction l as [| x l IH]; cbn; [lia | rewrite IH; lia].
Qed.

Lemma totalWidth_fold (data : list SlideData) :
  totalWidth data = fold_right Z.add 0%Z (map width data).
Proof.
  unfold totalWidth. generalize 0%Z.
  induction data as [| d data IH]; intro a; cbn [fold_left map fold_right].
  - reflexivity.
  - rewrite IH. apply fold_add_push.
Qed.

Lemma mount_sliderHeight slider n iw :
  sliderHeight (mount slider n iw) = Num (maxHeight (getSlidesData slider n)).
Proof.
  unfold mount, duplicateSlides. split_ifs; reflexivity.
Qed.

Lemma render_measured {A} (children : list A) (m : Memo) (s : State)
      (w h : Z) (count : nat) :
  sliderWidth s = Num w -> sliderHeight s = Num h ->
  duplicates s = Js.Fin (inject_Z (Z.of_nat count)) ->
  (Z.of_nat count < 2 ^ 32)%Z ->
  memo_fresh m s ->
  exists m',
    render children m s
    = Some
        ({| container_style :=
              [ ("width", CssPx (Js.Fin (inject_Z w * inject_Z (Z.of_nat count))));
                ("transform", CssTranslate (Js.Fin (translate s * inject_Z w))) ]%string;
            slides :=
              map (fun i =>
                     map (fun kc =>
                            {| key := slide_id i (fst kc);
                               style := slideStyle
                                        ++ [("height", CssPx (Js.Fin (inject_Z h)))%string];
                               child := snd kc |})
                         (combine (seq 0 (List.length children)) children))
                  (seq 0 count) |},
         m')
    /\ memo_fresh m' s.
Proof.
  intros Hw Hh Hd Hc [Fh Fw]. unfold render.
  destruct (useMemo_fresh same_height_deps (heightMemo m) (sliderHeight s)
              (fun _ => height_css (sliderHeight s)) Fh) as [Eh [dh Ch]].
  destruct (useMemo_fresh same_width_deps (widthMemo m)
              (sliderHeight s, duplicates s)
              (fun _ => width_css (sliderWidth s) (duplicates s)) Fw)
    as [Ew [dw Cw]].
  destruct (useMemo same_height_deps _ _ _) as [hv hm].
  destruct (useMemo same_width_deps _ _ _) as [wv wm].
  cbn [fst snd] in *. subst hv wv hm wm.
  rewrite Hd, (array_length_of_nat count Hc), Hw, Hh.
  cbn [height_css width_css to_number Js.mul].
  eexists. split; [reflexivity |].
  split; intros d v E _; cbn [heightMemo widthMemo] in E;
    injection E as _ E; subst v; rewrite ?Hw, ?Hh, ?Hd; reflexivity.
Qed.

Lemma memo_fresh_layout (m : Memo) (s s' : State) :
  layout s' = layout s -> memo_fresh m s -> memo_fresh m s'.
Proof.
  unfold layout, memo_fresh. intro E. injection E as Ew Eh Ed.
  rewrite Ew, Eh, Ed. exact (fun H => H).
Qed.

(** * The claims *)

(** ** Duplicate count bound *)

(** C1, counterexample: the claim wants a duplicate count of at least 2 in
    every state from mount on, also when the strip width is 0.  The first
    render holds the count 1, and a strip measured 0 pixels wide in a 450
    pixel viewport makes the duplicator store NaN. *)
Lemma C1_counterexample :
  ~ count_at_least_two (duplicates initial_state)
  /\ ~ count_at_least_two
       (duplicates (mount (Some [mkElement 0 20]) 1 450)).
Proof.
  split; intros [k [E Hk]].
  - cbn in E. injection E as E. lia.
  - vm_compute in E. discriminate E.
Qed.

(** C1, amended: the count is 1 in the first render; a duplicator run with
    the strip width still unmeasured ("auto") stores the default 2; and
    in every state reached from mount by frames, scrolls, visibility
    changes and resizes the count is an integer that is at least 2,
    provided the measured strip width is positive. *)
Theorem C1_duplicate_count cfg slider n iw events :
  (0 < totalWidth (getSlidesData slider n))%Z ->
  width_in_range iw ->
  Forall resize_in_range events ->
  duplicates initial_state = Js.Fin 1
  /\ (forall vw s, sliderWidth s = Auto ->
                   duplicates (duplicateSlides vw s) = DEFAULT_DUPLICATES)
  /\ count_at_least_two (duplicates (run cfg events (mount slider n iw))).
Proof.
  intros Hw Hiw Hev. split; [reflexivity |]. split.
  - intros vw s. apply duplicateSlides_auto.
  - apply (run_count cfg events _ _ Hw (mount_sliderWidth slider n iw) Hev).
    unfold mount.
    apply (count_spec (totalWidth (getSlidesData slider n))); try assumption.
    unfold mount_effects, updateSliderHeight, duplicateSlides.
    split_ifs; reflexivity.
Qed.

(** The amended C1 at the example: one slide 100 pixels wide, a viewport of
    450 pixels, a resize to 800 between two frames. *)
Lemma C1_duplicate_count_witness :
  duplicates initial_state = Js.Fin 1
  /\ (forall vw s, sliderWidth s = Auto ->
                   duplicates (duplicateSlides vw s) = DEFAULT_DUPLICATES)
  /\ count_at_least_two
       (duplicates
          (run default_props
               [Frame 100; Resize (Some [mkElement 100 20]) 1 800; Frame 120]
               (mount (Some [mkElement 100 20]) 1 450))).
Proof.
  apply (C1_duplicate_count default_props (Some [mkElement 100 20]) 1%nat 450%Z).
  - reflexivity.
  - reflexivity.
  - repeat constructor.
Defined.

(** ** Progress within a cycle *)




(** ** The duplicate count formula *)

(** C3, counterexample: for a strip measured 0 pixels wide and a viewport
    450 pixels wide the strip is narrower than the viewport, the quotient
    is Infinity and [parseInt] turns it into NaN: the stored count is no
    integer at all, so it is not the floor the claim states. *)
Lemma C3_counterexample :
  duplicates (duplicateSlides 450 (setSliderWidth (Num 0) initial_state))
  = Js.NaN
  /\ ~ (exists k : Z,
          duplicates (duplicateSlides 450 (setSliderWidth (Num 0) initial_state))
          = Js.Fin (inject_Z k)).
Proof.
  split; [reflexivity |]. intros [k E]. vm_compute in E. discriminate E.
Qed.

(** C3, amended: for every measured strip width above 0 the duplicator
    stores floor(viewportWidth / (stripWidth / 2)) when the strip is
    narrower than the viewport and 2 otherwise; the floor is the integer
    quotient of twice the viewport width by the strip width; 100 and 450
    give 9, 1000 and 450 give 2; a second run on the same inputs changes
    nothing. *)
Theorem C3_duplicate_formula (stripWidth viewportWidth : Z) (s : State) :
  (0 < stripWidth)%Z ->
  width_in_range viewportWidth ->
  let s' := duplicateSlides viewportWidth (setSliderWidth (Num stripWidth) s) in
  duplicates s'
  = Js.Fin (inject_Z (if (stripWidth <? viewportWidth)%Z
                      then Qfloor (inject_Z viewportWidth
                                   / (inject_Z stripWidth / 2))
                      else 2%Z))
  /\ ((stripWidth < viewportWidth)%Z ->
      duplicates s' = Js.Fin (inject_Z (2 * viewportWidth / stripWidth)))
  /\ duplicates (duplicateSlides 450 (setSliderWidth (Num 100) s)) = Js.Fin 9
  /\ duplicates (duplicateSlides 450 (setSliderWidth (Num 1000) s)) = Js.Fin 2
  /\ duplicateSlides viewportWidth s' = s'.
Proof.
  intros Hp Hr s'.
  assert (E : duplicates s'
              = Js.Fin (inject_Z (spec_duplicateCount stripWidth viewportWidth))).
  { apply duplicateSlides_positive_width; [exact Hp | exact Hr | reflexivity]. }
  split; [exact E |]. split; [| split; [| split]].
  - intro L. rewrite E. unfold spec_duplicateCount.
    rewrite (proj2 (Z.ltb_lt _ _) L), Qfloor_div_half by exact Hp. reflexivity.
  - reflexivity.
  - reflexivity.
  - apply duplicateSlides_idem.
Qed.

(** The amended C3 at strip width 300 and viewport width 450. *)
Lemma C3_duplicate_formula_witness :
  duplicates (duplicateSlides 450 (setSliderWidth (Num 300) initial_state))
  = Js.Fin 3.
Proof.
  exact (proj1 (C3_duplicate_formula 300 450 initial_state
                  ltac:(reflexivity) ltac:(reflexivity))).
Defined.

(** ** The throttle *)

(** C4, counterexample: with the default props (interval 1000/60 ms, the
    specification's 1000/fps at 60 frames per second), frames arrive at
    100, 120, 130 and 140 ms.  The frame at 120 is accepted, the one at 130
    is not; at 140 the time since the last accepted frame is 20 ms, not
    below the interval, and still the frame publishes nothing, because the
    code measures from 130, the first callback after the accepted one.
    The fps prop is compared as it is.  Set to 20, a frame exactly 20 ms
    after the throttle timestamp publishes nothing, the comparison being
    strict, and a frame 21 ms after it publishes, although 21 is below
    1000/20; set to 60, a frame 30 ms after the throttle timestamp
    publishes nothing, although 30 is above 1000/60. *)
Lemma C4_counterexample :
  fps default_props == spec_frameIntervalMs 60
  /\ published (run default_props [Frame 100; Frame 120] example_mount)
     <> published (run default_props [Frame 100] example_mount)
  /\ published (run default_props [Frame 100; Frame 120; Frame 130] example_mount)
     = published (run default_props [Frame 100; Frame 120] example_mount)
  /\ spec_frameIntervalMs 60 <= 140 - 120
  /\ published
       (frame default_props 140
          (run default_props [Frame 100; Frame 120; Frame 130] example_mount))
     = published
         (run default_props [Frame 100; Frame 120; Frame 130] example_mount)
  /\ published
       (run (mkProps TOTAL_TIME OFFSET_TOP OFFSET_BOTTOM 20)
            [Frame 100; Frame 120] example_mount)
     = []
  /\ published
       (run (mkProps TOTAL_TIME OFFSET_TOP OFFSET_BOTTOM 20)
            [Frame 100; Frame 121] example_mount)
     <> []
  /\ 121 - 100 < spec_frameIntervalMs 20
  /\ spec_frameIntervalMs 60 <= 130 - 100
  /\ published
       (run (mkProps TOTAL_TIME OFFSET_TOP OFFSET_BOTTOM 60)
            [Frame 100; Frame 130] example_mount)
     = [].
Proof.
  split; [reflexivity |].
  split; [intro E; vm_compute in E; discriminate E |].
  split; [vm_compute; reflexivity |].
  split; [vm_compute; discriminate |].
  split; [vm_compute; reflexivity |].
  split; [vm_compute; reflexivity |].
  split; [intro E; vm_compute in E; discriminate E |].
  split; [vm_compute; reflexivity |].
  split; [vm_compute; discriminate |].
  vm_compute; reflexivity.
Qed.

(** C4, amended: the default interval is 1000/60 ms; a frame callback
    advances progress exactly when its timestamp minus the throttle
    timestamp strictly exceeds the configured interval; the throttle
    timestamp is the callback's own timestamp when the cell is unset and
    the stored one otherwise; an accepted frame clears the cell and a
    throttled one leaves the throttle timestamp in it. *)
Theorem C4_throttle cfg ts s :
  fps default_props == 1000 / 60
  /\ (advances cfg ts s <-> fps cfg < elapsed_at ts s)
  /\ (Js.falsy (lastFrameTimestamp s) = true -> elapsed_at ts s = ts - ts)
  /\ (forall t, lastFrameTimestamp s = Some t -> ~ t == 0 ->
                elapsed_at ts s = ts - t)
  /\ (fps cfg < elapsed_at ts s ->
      lastFrameTimestamp (animateSlider cfg ts s) = None)
  /\ (elapsed_at ts s <= fps cfg ->
      lastFrameTimestamp (animateSlider cfg ts s)
      = Some (init_if_falsy (lastFrameTimestamp s) ts)).
Proof.
  split; [reflexivity |]. split; [apply advances_iff |].
  split; [| split; [| split]].
  - unfold elapsed_at, Js.falsy, init_if_falsy.
    destruct (lastFrameTimestamp s) as [t |]; [| reflexivity].
    intro E. rewrite E. reflexivity.
  - intros t E Hne. unfold elapsed_at. rewrite E. unfold init_if_falsy.
    rewrite Qeq_bool_false by exact Hne. reflexivity.
  - intro H.
    destruct (animateSlider_published cfg ts s) as [[H' _] | [_ [E _]]];
      [lra | exact E].
  - intro H.
    destruct (animateSlider_published cfg ts s)
      as [[_ [_ [_ [_ E]]]] | [H' _]]; [exact E | lra].
Qed.

(** ** Resuming from the paused offset *)

(** C5, the code at the failing input: the example slider receives frames
    at 100, 120 (accepted, 0.002 is published) and 130 (throttled), is
    rendered again with two children, and the document is hidden.  The
    start effect has queued a second [animateSlider] callback and [pause]
    has cancelled only that one, so the component is paused at progress
    0.002 with the old callback still queued.  Play queues the resume
    closure, with 20 ms of elapsed time, behind it.  At the next frame, at
    5000, the old callback runs first, with the cycle start 100 of before
    the pause: it is accepted and publishes 0.49.  The resume closure
    then sets the cycle start to 4980 and is throttled.  What follows the
    play is 0.49, not a value near 0.002. *)
Lemma C5_second_chain_resume :
  let s := example_rerendered in
  let s1 := frame default_props 5000 (play default_props s) in
  frameId s = None
  /\ translate s == 0.002
  /\ lastProgressStep s = Some (translate s)
  /\ pending s = [(4%positive, CbAnimate)]
  /\ (exists e, pending (play default_props s)
                = [(4%positive, CbAnimate); (6%positive, CbResume (Some e))]
                /\ e == 20)
  /\ (exists v, published s1 = v :: published s /\ v == 0.49)
  /\ (exists c, currentTime s1 = Some c /\ c == 5000 - 20).
Proof.
  cbv zeta. split; [reflexivity |]. split; [vm_compute; reflexivity |].
  split; [reflexivity |]. split; [vm_compute; reflexivity |].
  split; [| split].
  - eexists. split; vm_compute; reflexivity.
  - eexists. split; vm_compute; reflexivity.
  - eexists. split; vm_compute; reflexivity.
Qed.

(** ** The rendered output *)

(** C6, counterexample: the claim makes the container max(height) pixels
    tall and its width a function of the current strip width and count.
    In the render that follows mount (three slides, 300 pixels in all,
    tallest 30) the container's style has no height, the height is on
    every slide.  And the width is cached under the dependencies
    [sliderHeight, duplicates]: a slider is mounted with three slides, 600
    pixels in all and 20 high, and then rendered with two, 500 pixels in
    all and 20 high; height and count are the same, and the container is
    still 1200 pixels wide, where a render of that state without the cache
    gives 1000. *)
Lemma C6_counterexample :
  (exists v m',
      render example_children no_memo example_mount = Some (v, m')
      /\ style_get "height" (container_style v) = None
      /\ Forall (Forall (fun sl => style_get "height" (style sl)
                                  = Some (CssPx (Js.Fin 30))))
                (slides v))
  /\ sliderWidth wide_shrunk = Num 500
  /\ duplicates wide_shrunk = Js.Fin 2
  /\ (exists v1 v2 v3 v,
         render_all no_memo
                    [ (example_children, initial_state);
                      (example_children, wide_mount);
                      (["a"; "b"]%string, wide_shrunk) ]
         = [Some v1; Some v2; Some v3]
         /\ style_get "width" (container_style v3) = Some (CssPx (Js.Fin 1200))
         /\ render_all no_memo [(["a"; "b"]%string, wide_shrunk)] = [Some v]
         /\ style_get "width" (container_style v) = Some (CssPx (Js.Fin 1000))).
Proof.
  split; [| split; [reflexivity | split; [reflexivity |]]].
  - eexists. eexists. split; [vm_compute; reflexivity |].
    split; [reflexivity |]. repeat constructor.
  - eexists. eexists. eexists. eexists.
    split; [vm_compute; reflexivity |]. split; [reflexivity |].
    split; [vm_compute; reflexivity | reflexivity].
Qed.

(** C6, amended: for a measured strip, an integer count and caches that are
    fresh for the state, the render returns a container whose style is a
    width of stripWidth * count px and the transform translateX(-50%)
    translateX(-(progress * stripWidth)px), with no height of its own;
    its children are count copies of the child sequence, in order; the
    slide at copy i and index k has the key slide-i-k; every slide is
    styled with the base slide style and the height sliderHeight px; the
    caches it leaves are fresh for every state with the same strip width,
    height and count.  After mount the strip width is the sum of the
    measured widths and the height their maximum height. *)
Theorem C6_render {A : Type} (children : list A) (m : Memo) (s : State)
        (w h : Z) (count : nat) :
  sliderWidth s = Num w -> sliderHeight s = Num h ->
  duplicates s = Js.Fin (inject_Z (Z.of_nat count)) ->
  (Z.of_nat count < 2 ^ 32)%Z ->
  memo_fresh m s ->
  (exists v m',
      render children m s = Some (v, m')
      /\ container_style v
         = [ ("width", CssPx (Js.Fin (inject_Z w * inject_Z (Z.of_nat count))));
             ("transform", CssTranslate (Js.Fin (translate s * inject_Z w))) ]%string
      /\ style_get "height" (container_style v) = None
      /\ map (map child) (slides v) = repeat children count
      /\ map (map key) (slides v)
         = map (fun i => map (slide_id i) (seq 0 (List.length children)))
               (seq 0 count)
      /\ map (map style) (slides v)
         = repeat (repeat (slideStyle
                           ++ [("height", CssPx (Js.Fin (inject_Z h)))%string])
                          (List.length children))
                  count
      /\ (forall s', layout s' = layout s -> memo_fresh m' s'))
  /\ (forall slider n iw,
         sliderWidth (mount slider n iw)
         = Num (fold_right Z.add 0%Z (map width (getSlidesData slider n)))
         /\ sliderHeight (mount slider n iw)
            = Num (fold_right Z.max 0%Z (map height (getSlidesData slider n)))).
Proof.
  intros Hw Hh Hd Hc Hm. split.
  - destruct (render_measured children m s w h count Hw Hh Hd Hc Hm)
      as [m' [E Hm']].
    eexists. exists m'. split; [exact E |]. cbn [container_style slides].
    split; [reflexivity |]. split; [reflexivity |].
    split; [| split; [| split]];
      [| | | intros s' E'; exact (memo_fresh_layout m' s s' E' Hm')].
    + rewrite map_map.
      rewrite (map_ext _ (fun _ => children)).
      * apply map_const_seq.
      * intro i. rewrite map_map. cbn [child]. apply combine_seq_snd.
    + rewrite map_map. apply map_ext. intro i. rewrite map_map. cbn [key].
      rewrite <- (map_map fst (slide_id i)). now rewrite combine_seq_fst.
    + rewrite map_map.
      rewrite (map_ext _ (fun _ => repeat (slideStyle
                                           ++ [("height", CssPx (Js.Fin (inject_Z h)))%string])
                                          (List.length children))).
      * apply map_const_seq.
      * intro i. rewrite map_map. cbn [style].
        rewrite map_const_length, length_combine, length_seq.
        now rewrite Nat.min_id.
  - intros slider n iw.
    rewrite mount_sliderWidth, mount_sliderHeight, totalWidth_fold,
      maxHeight_fold.
    split; reflexivity.
Qed.

(** The amended C6 at the first render after mount of the example slider. *)
Lemma C6_render_witness :
  exists v m',
    render example_children no_memo example_mount = Some (v, m')
    /\ container_style v
       = [ ("width", CssPx (Js.Fin (inject_Z 300 * inject_Z 3)));
           ("transform",
            CssTranslate (Js.Fin (translate example_mount * inject_Z 300))) ]%string.
Proof.
  assert (F : memo_fresh no_memo example_mount)
    by (split; intros d v E; discriminate E).
  destruct (proj1 (C6_render example_children no_memo example_mount
                     300 30 3 eq_refl eq_refl eq_refl eq_refl F))
    as [v [m' [E [Hc _]]]].
  exists v, m'. split; [exact E | exact Hc].
Defined.

(** ** The viewport gate *)

(** C7: the component counts as in the viewport exactly when
    top + height - offsetTop > 0 and top + offsetBottom < viewport height;
    a scroll plays when it is and pauses when it is not; the box with top
    -50 and height 40 under offsetTop 0 in a viewport 800 high is out of
    the viewport, so the scroll handler pauses. *)
Theorem C7_viewport_gate :
  (forall cfg rect innerHeight,
      isInViewport cfg rect innerHeight = true
      <-> (0 < top rect + rect_height rect - offsetTop cfg
           /\ top rect + offsetBottom cfg < innerHeight))
  /\ (forall cfg rect innerHeight s,
         handleViewportState cfg rect innerHeight s
         = if isInViewport cfg rect innerHeight then play cfg s else pause s)
  /\ (forall total bottom interval s,
         let cfg := mkProps total 0 bottom interval in
         isInViewport cfg (mkRect (-50) 40) 800 = false
         /\ handleViewportState cfg (mkRect (-50) 40) 800 s = pause s).
Proof.
  split; [| split].
  - intros cfg rect ih. unfold isInViewport.
    rewrite andb_true_iff, !Qltb_lt. reflexivity.
  - intros cfg rect ih s. unfold handleViewportState.
    destruct (isInViewport cfg rect ih); reflexivity.
  - intros total bottom interval s cfg.
    assert (E : isInViewport cfg (mkRect (-50) 40) 800 = false) by reflexivity.
    split; [exact E |]. unfold handleViewportState. rewrite E. reflexivity.
Qed.

(** ** Visibility changes *)

(** C8: on a visibility change to "hidden" the handler pauses; on a change
    to "visible" it plays when the component is in the viewport and does
    nothing when it is not; any other visibility state changes nothing. *)
Theorem C8_visibility_change cfg rect innerHeight s :
  handleVisibilityChange cfg "hidden" rect innerHeight s = pause s
  /\ handleVisibilityChange cfg "visible" rect innerHeight s
     = (if isInViewport cfg rect innerHeight then play cfg s else s)
  /\ (forall v, v <> "hidden"%string -> v <> "visible"%string ->
                handleVisibilityChange cfg v rect innerHeight s = s).
Proof.
  unfold handleVisibilityChange. split; [| split].
  - reflexivity.
  - cbn [String.eqb Ascii.eqb Bool.eqb andb].
    destruct (isInViewport cfg rect innerHeight); reflexivity.
  - intros v H1 H2.
    rewrite (proj2 (String.eqb_neq _ _) H1), (proj2 (String.eqb_neq _ _) H2).
    reflexivity.
Qed.

(** ** Play and pause *)

(** While the props and the number of children stay as they were at mount,
    every state reached is either paused, with an empty frame queue, and
    then pause changes nothing; or running, with exactly one queued
    callback, the one [frameId] names, and then play changes nothing.  A
    second play, or a second pause, is a no-op, and pause keeps the
    progress and what was published. *)
Lemma play_pause_idempotent_run cfg slider n iw events :
  let s := run cfg events (mount slider n iw) in
  ((frameId s = None /\ pending s = [] /\ pause s = s)
   \/ (exists h cb, frameId s = Some h /\ pending s = [(h, cb)]
                    /\ play cfg s = s))
  /\ (List.length (pending (play cfg s)) <= 1)%nat
  /\ play cfg (play cfg s) = play cfg s
  /\ pause (pause s) = pause s
  /\ translate (pause s) = translate s
  /\ lastProgressStep (pause s) = lastProgressStep s
  /\ published (pause s) = published s.
Proof.
  intro s.
  assert (Hs : sched_ok cfg s).
  { apply sched_ok_run. apply sched_ok_mount. }
  assert (Hpause : forall x, frameId x = None -> pause x = x).
  { intros x Hx. unfold pause. rewrite Hx. destruct x. cbn in *. subst.
    reflexivity. }
  assert (Hplay : forall x h, frameId x = Some h -> play cfg x = x).
  { intros x h Hx. unfold play. rewrite Hx. reflexivity. }
  split; [| split; [| split; [| split; [| split; [| split]]]]].
  - unfold sched_ok in Hs. destruct (frameId s) as [h |] eqn:F.
    + right. destruct Hs as [cb [P _]]. exists h, cb. repeat split; try assumption.
      now apply (Hplay s h).
    + left. repeat split; try assumption. now apply Hpause.
  - pose proof (sched_ok_play cfg s Hs) as H. unfold sched_ok in H.
    destruct (frameId (play cfg s)).
    + destruct H as [cb [P _]]. rewrite P. cbn. lia.
    + rewrite H. cbn. lia.
  - destruct (frameId s) as [h |] eqn:F.
    + rewrite (Hplay s h F). now apply (Hplay s h).
    + rewrite (play_paused cfg s F). eapply Hplay. reflexivity.
  - apply Hpause. reflexivity.
  - unfold pause. destruct (frameId s); reflexivity.
  - unfold pause. destruct (frameId s); reflexivity.
  - unfold pause. destruct (frameId s); reflexivity.
Qed.

(** C9, the code at the failing input: the slider is mounted with three
    children, frames arrive at 100 and 120, and then it is rendered with
    two children.  The start effect runs again and requests a frame while
    the callback of the running chain is still queued: two callbacks are
    pending.  Pause cancels only the one [frameId] names, so a callback
    stays queued in the paused state, and a play then queues a second,
    concurrent chain next to it. *)
Lemma C9_second_chain :
  let s := children_changed (Some [mkElement 100 20; mkElement 150 30]) 2 450
             (run default_props [Frame 100; Frame 120] example_mount) in
  pending s = [(3%positive, CbAnimate); (4%positive, CbAnimate)]
  /\ frameId s = Some 4%positive
  /\ pending (pause s) = [(3%positive, CbAnimate)]
  /\ frameId (pause s) = None
  /\ (exists e, pending (play default_props (pause s))
                = [(3%positive, CbAnimate); (5%positive, CbResume e)])
  /\ play default_props (pause s) <> pause s.
Proof.
  cbv zeta. repeat split; try reflexivity.
  - eexists. vm_compute. reflexivity.
  - intro E. apply (f_equal frameId) in E. vm_compute in E. discriminate E.
Qed.

(** ** The first callback of a chain *)

(** C10, counterexample: after frames at 100, 120 (accepted) and 130
    (throttled, so the throttle timestamp is 130), a scroll out of the
    viewport pauses and a scroll back in plays.  The resumed chain's first
    callback, at 5000, finds the throttle timestamp 130 instead of an unset
    cell, measures 4870 ms and publishes. *)
Lemma C10_counterexample :
  let s := run default_props
               [Frame 100; Frame 120; Frame 130; scroll_out; scroll_in]
               example_mount in
  (exists e, pending s = [(5%positive, CbResume e)])
  /\ lastFrameTimestamp s = Some 130
  /\ elapsed_at 5000 s == 4870
  /\ published (frame default_props 5000 s) <> published s.
Proof.
  cbv zeta. split; [eexists; vm_compute; reflexivity |].
  split; [reflexivity |]. split; [reflexivity |]. vm_compute. discriminate.
Qed.

(** C10, amended: a frame callback that finds the throttle timestamp
    unset sets it to its own timestamp, measures 0 elapsed and, for a
    non-negative interval, publishes nothing and only queues itself again.
    That is the case for the first callback after mount, and for the first
    callback after a resume when the pause followed an accepted frame,
    because an accepted frame clears the cell and pause and play leave it
    as it is.  The first callback of any resumed chain publishes nothing
    when the throttle holds it back, and otherwise the progress computed
    at its own timestamp from the cycle start it has just set from the
    retained progress, followed by 0 should that progress be 1. *)
Theorem C10_first_callback cfg :
  0 <= fps cfg ->
  (forall ts s,
      Js.falsy (lastFrameTimestamp s) = true ->
      lastFrameTimestamp (animateSlider cfg ts s) = Some ts
      /\ elapsed_at ts s == 0
      /\ published (animateSlider cfg ts s) = published s
      /\ translate (animateSlider cfg ts s) = translate s
      /\ pending (animateSlider cfg ts s)
         = pending s ++ [(nextHandle s, CbAnimate)])
  /\ (forall slider n iw,
         lastFrameTimestamp (mount slider n iw) = None
         /\ pending (mount slider n iw) = [(1%positive, CbAnimate)])
  /\ (forall ts s,
         fps cfg < elapsed_at ts s ->
         lastFrameTimestamp (animateSlider cfg ts s) = None)
  /\ (forall s,
         lastFrameTimestamp (pause s) = lastFrameTimestamp s
         /\ lastFrameTimestamp (play cfg s) = lastFrameTimestamp s)
  /\ (forall slider n iw events ts,
         0 < totalTime cfg -> timed 0 events ->
         let s := run cfg events (mount slider n iw) in
         frameId s = None ->
         (elapsed_at ts s <= fps cfg ->
          published (frame cfg ts (play cfg s)) = published s)
         /\ (fps cfg < elapsed_at ts s ->
             published (frame cfg ts (play cfg s))
             = progress_at cfg ts (resumed_at cfg ts s) :: published s
             \/ published (frame cfg ts (play cfg s))
                = 0 :: progress_at cfg ts (resumed_at cfg ts s)
                    :: published s)).
Proof.
  intro Hfps. split; [| split; [| split; [| split]]].
  - intros ts s Hfalsy.
    assert (Hinit : init_if_falsy (lastFrameTimestamp s) ts = ts).
    { unfold Js.falsy in Hfalsy. unfold init_if_falsy.
      destruct (lastFrameTimestamp s); [rewrite Hfalsy |]; reflexivity. }
    assert (He : elapsed_at ts s == 0).
    { unfold elapsed_at. rewrite Hinit. lra. }
    destruct (animateSlider_queue cfg ts s) as [_ P].
    destruct (animateSlider_published cfg ts s)
      as [[_ [E [Etr [_ El]]]] | [H _]]; [| lra].
    rewrite El, Hinit. repeat split; assumption.
  - intros slider n iw. unfold mount, duplicateSlides.
    split_ifs; split; reflexivity.
  - intros ts s H.
    destruct (animateSlider_published cfg ts s) as [[H' _] | [_ [E _]]];
      [lra | exact E].
  - intro s. unfold pause, play. destruct (frameId s); split; reflexivity.
  - intros slider n iw events ts HT Htimed s Hf.
    destruct (mount_run_inv cfg slider n iw events HT Htimed) as [Hs Ht].
    apply resume_published; [exact Hs | apply Ht | exact Hf].
Qed.

(** The amended C10 at the first callback after mount, under the default
    props. *)
Lemma C10_first_callback_witness :
  lastFrameTimestamp (animateSlider default_props 100 example_mount) = Some 100
  /\ published (animateSlider default_props 100 example_mount)
     = published example_mount.
Proof.
  pose proof (proj1 (C10_first_callback default_props ltac:(discriminate))
                100 example_mount eq_refl) as H.
  exact (conj (proj1 H) (proj1 (proj2 (proj2 H)))).
Defined.

(** * Further properties of the code *)

(** ** The layout measurer *)

Lemma firstn_length_app {A} (l l' : list A) :
  firstn (List.length l) (l ++ l') = l.
Proof.
  induction l as [| x l IH]; cbn; [now destruct l' | now rewrite IH].
Qed.

(** X1: the measurer reads the first [initialLength] children only: with
    no slider attached it returns nothing, it never returns more entries
    than asked for or than there are children, and the copies rendered
    after the originals have no influence on what it returns nor on the
    state after mount. *)
Theorem X1_measures_originals_only (originals copies : list Element) :
  (forall n, getSlidesData None n = [])
  /\ (forall slides n,
         List.length (getSlidesData (Some slides) n)
         = Nat.min n (List.length slides))
  /\ getSlidesData (Some (originals ++ copies)) (List.length originals)
     = map (fun e => {| width := offsetWidth e; height := offsetHeight e |})
           originals
  /\ (forall iw,
         mount (Some (originals ++ copies)) (List.length originals) iw
         = mount (Some originals) (List.length originals) iw).
Proof.
  assert (E : getSlidesData (Some (originals ++ copies)) (List.length originals)
              = getSlidesData (Some originals) (List.length originals)).
  { unfold getSlidesData. now rewrite firstn_length_app, firstn_all. }
  split; [reflexivity |]. split; [| split].
  - intros slides n. unfold getSlidesData. now rewrite length_map, length_firstn.
  - rewrite E. unfold getSlidesData. now rewrite firstn_all.
  - intro iw. unfold mount, mount_effects, start_effect, updateSliderHeight.
    now rewrite E.
Qed.

Lemma maxHeight_upper (data : list SlideData) (d : SlideData) :
  In d data -> (height d <= maxHeight data)%Z.
Proof.
  rewrite maxHeight_fold. induction data as [| x data IH]; cbn; [easy |].
  intros [E | H]; [subst; lia | specialize (IH H); lia].
Qed.

Lemma maxHeight_attained (data : list SlideData) :
  maxHeight data = 0%Z
  \/ exists d, In d data /\ height d = maxHeight data.
Proof.
  rewrite maxHeight_fold. induction data as [| x data IH]; cbn; [now left |].
  destruct (Z.max_spec (height x) (fold_right Z.max 0%Z (map height data)))
    as [[_ E] | [_ E]]; rewrite E.
  - destruct IH as [IH | [d [Hd Ed]]]; [now left |].
    right. exists d. split; [now right | exact Ed].
  - right. exists x. split; [now left | reflexivity].
Qed.

Lemma maxHeight_nonneg (data : list SlideData) : (0 <= maxHeight data)%Z.
Proof.
  rewrite maxHeight_fold. induction data as [| x data IH]; cbn; lia.
Qed.

(** X2: the height the slider is given is never negative, is at least the
    height of every measured slide, and is 0 or the height of one of them;
    with no slider attached, or no children, it is 0 pixels, not "auto". *)
Theorem X2_slider_height_is_max (slider : SliderRef) (n : nat) (s : State) :
  let data := getSlidesData slider n in
  sliderHeight (updateSliderHeight slider n s) = Num (maxHeight data)
  /\ (0 <= maxHeight data)%Z
  /\ (forall d, In d data -> (height d <= maxHeight data)%Z)
  /\ (maxHeight data = 0%Z \/ exists d, In d data /\ height d = maxHeight data)
  /\ sliderHeight (updateSliderHeight None n s) = Num 0
  /\ sliderHeight (updateSliderHeight slider 0 s) = Num 0.
Proof.
  intro data. split; [reflexivity |]. split; [apply maxHeight_nonneg |].
  split; [apply maxHeight_upper |]. split; [apply maxHeight_attained |].
  split; [reflexivity |]. unfold updateSliderHeight, getSlidesData.
  destruct slider; reflexivity.
Qed.

(** X3: no host event measures the strip width again.  After any run of
    frames, scrolls, visibility changes and resizes the strip width is the
    sum measured at mount; a resize measures the height anew and computes
    the count from the new viewport width and that old strip width. *)
Theorem X3_width_measured_once cfg slider n iw events slider' n' iw' :
  let s := run cfg events (mount slider n iw) in
  let s' := step cfg (Resize slider' n' iw') s in
  sliderWidth s = Num (totalWidth (getSlidesData slider n))
  /\ sliderWidth s' = Num (totalWidth (getSlidesData slider n))
  /\ sliderHeight s' = Num (maxHeight (getSlidesData slider' n'))
  /\ duplicates s' = duplicates (duplicateSlides iw' (mount slider n iw)).
Proof.
  intros s s'.
  assert (Hw : sliderWidth s = Num (totalWidth (getSlidesData slider n))).
  { subst s. now rewrite run_sliderWidth, mount_sliderWidth. }
  split; [exact Hw |]. split; [| split].
  - subst s'. now rewrite step_sliderWidth.
  - reflexivity.
  - subst s'. cbn [step]. unfold updateSliderHeight, duplicateSlides.
    cbn [duplicates setSliderHeight]. rewrite Hw, mount_sliderWidth.
    split_ifs; reflexivity.
Qed.

(** ** The duplicator *)

(** X8: for a positive measured strip width the copies cover the viewport:
    the stored count is an integer k with k * stripWidth at least the
    viewport width; when the strip is narrower than the viewport, k is the
    largest integer with k * stripWidth at most twice the viewport width. *)
Theorem X8_copies_cover_viewport (sw vw : Z) (s : State) :
  (0 < sw)%Z -> width_in_range vw -> sliderWidth s = Num sw ->
  exists k : Z,
    duplicates (duplicateSlides vw s) = Js.Fin (inject_Z k)
    /\ (vw <= k * sw)%Z
    /\ ((sw < vw)%Z -> (k * sw <= 2 * vw < (k + 1) * sw)%Z)
    /\ ((vw <= sw)%Z -> k = 2%Z).
Proof.
  intros Hp Hr Hw. exists (spec_duplicateCount sw vw).
  split; [now apply duplicateSlides_positive_width |].
  unfold spec_duplicateCount.
  destruct (Z.ltb_spec sw vw) as [L | L].
  - rewrite Qfloor_div_half by exact Hp.
    pose proof (Z.mul_div_le (2 * vw) sw Hp) as H1.
    pose proof (Z.mul_succ_div_gt (2 * vw) sw Hp) as H2.
    repeat split; nia.
  - repeat split; lia.
Qed.

(** X8 at a strip 300 pixels wide in a viewport of 1000 pixels. *)
Lemma X8_copies_cover_viewport_witness :
  exists k : Z,
    duplicates (duplicateSlides 1000 (setSliderWidth (Num 300) initial_state))
    = Js.Fin (inject_Z k)
    /\ (1000 <= k * 300)%Z.
Proof.
  destruct (X8_copies_cover_viewport 300 1000
              (setSliderWidth (Num 300) initial_state)
              eq_refl eq_refl eq_refl) as [k [E [H _]]].
  exists k. split; [exact E | exact H].
Defined.

(** X9: a strip measured 0 pixels wide in a viewport of positive width
    makes the count NaN at mount, and every render of that state throws
    when it builds the array of copies.  No slider attached, or no
    children, is such a case. *)
Theorem X9_empty_strip_throws (slider : SliderRef) (n : nat) (iw : Z) :
  totalWidth (getSlidesData slider n) = 0%Z -> (0 < iw)%Z ->
  duplicates (mount slider n iw) = Js.NaN
  /\ (forall (A : Type) (children : list A) (m : Memo),
         render children m (mount slider n iw) = None)
  /\ totalWidth (getSlidesData None n) = 0%Z
  /\ totalWidth (getSlidesData slider 0) = 0%Z.
Proof.
  intros Hw Hiw.
  assert (E : duplicates (mount slider n iw) = Js.NaN).
  { unfold mount, duplicateSlides at 1.
    replace (sliderWidth (mount_effects slider n iw initial_state))
      with (Num 0).
    - cbn [to_number Js.lt].
      assert (L : Js.Qltb (inject_Z 0) (inject_Z iw) = true).
      { apply Qltb_lt. rewrite <- Zlt_Qlt. exact Hiw. }
      rewrite L. cbn [duplicates setDuplicates].
      replace (Js.div (Js.Fin (inject_Z 0)) (Js.Fin 2)) with (Js.Fin (0 / 2))
        by reflexivity.
      unfold Js.div.
      replace (Qeq_bool (0 / 2) 0) with true by reflexivity.
      rewrite Qeq_bool_false.
      + replace (Js.Qltb 0 (inject_Z iw)) with true. reflexivity.
      + apply Qltb_lt in L. change (inject_Z 0) with 0 in L. lra.
    - unfold mount_effects, start_effect, updateSliderHeight, duplicateSlides.
      rewrite Hw. split_ifs; reflexivity. }
  split; [exact E |]. split; [| split].
  - intros A children m. unfold render. rewrite E.
    destruct (useMemo same_height_deps _ _ _).
    destruct (useMemo same_width_deps _ _ _). reflexivity.
  - reflexivity.
  - unfold getSlidesData. destruct slider; reflexivity.
Qed.

(** X9 with no slider attached. *)
Lemma X9_empty_strip_throws_witness :
  render example_children no_memo (mount None 3 450) = None.
Proof.
  exact (proj1 (proj2 (X9_empty_strip_throws None 3 450 eq_refl eq_refl))
           string example_children no_memo).
Defined.

(** ** Pausing and playing *)

Lemma frames_idle cfg (l : list Q) (s : State) :
  pending s = [] ->
  pending (run cfg (map Frame l) s) = []
  /\ frameId (run cfg (map Frame l) s) = frameId s
  /\ published (run cfg (map Frame l) s) = published s
  /\ translate (run cfg (map Frame l) s) = translate s
  /\ currentTime (run cfg (map Frame l) s) = currentTime s
  /\ lastFrameTimestamp (run cfg (map Frame l) s) = lastFrameTimestamp s.
Proof.
  revert s. induction l as [| t l IH]; intros s H.
  - cbn. repeat split; assumption.
  - change (run cfg (map Frame (t :: l)) s)
      with (run cfg (map Frame l) (frame cfg t s)).
    rewrite (frame_idle cfg t s H).
    apply (IH (set_pending [] s)). reflexivity.
Qed.

(** X4: pause stops the animation.  In every state reached from mount,
    after a pause the frame queue is empty, and however many frames
    follow, nothing is published and progress, cycle start and throttle
    timestamp stay as they were. *)
Theorem X4_pause_freezes cfg slider n iw events (later : list Q) :
  let s := run cfg events (mount slider n iw) in
  let s' := run cfg (map Frame later) (pause s) in
  pending (pause s) = []
  /\ pending s' = []
  /\ frameId s' = None
  /\ published s' = published s
  /\ translate s' = translate s
  /\ currentTime s' = currentTime s
  /\ lastFrameTimestamp s' = lastFrameTimestamp s.
Proof.
  intros s s'.
  assert (Hs : sched_ok cfg (pause s)).
  { apply sched_ok_pause, sched_ok_run, sched_ok_mount. }
  assert (Hp : pending (pause s) = []) by exact Hs.
  destruct (frames_idle cfg later (pause s) Hp) as [A [B [C [D [E F]]]]].
  fold s' in A, B, C, D, E, F.
  split; [exact Hp |]. split; [exact A |]. split; [exact B |].
  assert (P : forall x, published (pause x) = published x
                        /\ translate (pause x) = translate x
                        /\ currentTime (pause x) = currentTime x
                        /\ lastFrameTimestamp (pause x) = lastFrameTimestamp x).
  { intro x. unfold pause. destruct (frameId x); repeat split. }
  destruct (P s) as [P1 [P2 [P3 P4]]].
  repeat split; congruence.
Qed.

Lemma pause_idem (s : State) : pause (pause s) = pause s.
Proof. unfold pause. destruct (frameId s); reflexivity. Qed.

Lemma play_idem cfg (s : State) : play cfg (play cfg s) = play cfg s.
Proof. unfold play. destruct (frameId s) eqn:E; [now rewrite E | reflexivity]. Qed.

(** X6: each handler is idempotent on every state, whatever the queue
    holds: a second pause, a second play, a second scroll event with the
    same box and viewport, and a second visibility change with the same
    visibility state, change nothing. *)
Theorem X6_handlers_idempotent cfg (s : State) :
  pause (pause s) = pause s
  /\ play cfg (play cfg s) = play cfg s
  /\ (forall rect ih,
         handleViewportState cfg rect ih (handleViewportState cfg rect ih s)
         = handleViewportState cfg rect ih s)
  /\ (forall v rect ih,
         handleVisibilityChange cfg v rect ih
           (handleVisibilityChange cfg v rect ih s)
         = handleVisibilityChange cfg v rect ih s).
Proof.
  split; [apply pause_idem |]. split; [apply play_idem |]. split.
  - intros rect ih. unfold handleViewportState.
    destruct (negb (isInViewport cfg rect ih));
      [apply pause_idem | apply play_idem].
  - intros v rect ih. unfold handleVisibilityChange.
    destruct (String.eqb v "hidden") eqn:H.
    + apply String.eqb_eq in H. subst v. cbn [String.eqb Ascii.eqb Bool.eqb andb].
      apply pause_idem.
    + destruct (String.eqb v "visible" && isInViewport cfg rect ih);
        [apply play_idem | reflexivity].
Qed.

(** X7: a play that is undone by a pause before the next frame leaves no
    callback behind.  From a paused state reached from mount, play and
    then pause give an empty queue and a null handle again, with progress,
    cycle start, throttle timestamp, the published values and the layout
    as before; only the handle counter has moved on. *)
Theorem X7_play_then_pause cfg slider n iw events :
  let p := pause (run cfg events (mount slider n iw)) in
  let q := pause (play cfg p) in
  pending (play cfg p) = [(nextHandle p, CbResume
                             (option_map (fun x => totalTime cfg * x)
                                         (lastProgressStep p)))]
  /\ pending q = []
  /\ frameId q = None
  /\ nextHandle q = Pos.succ (nextHandle p)
  /\ translate q = translate p
  /\ lastProgressStep q = lastProgressStep p
  /\ currentTime q = currentTime p
  /\ lastFrameTimestamp q = lastFrameTimestamp p
  /\ published q = published p
  /\ layout q = layout p.
Proof.
  intros p q.
  assert (Hp : pending p = []).
  { assert (Hs : sched_ok cfg p)
      by apply sched_ok_pause, sched_ok_run, sched_ok_mount.
    exact Hs. }
  assert (Hf : frameId p = None) by (subst p; unfold pause; reflexivity).
  subst q. rewrite (play_paused cfg p Hf). unfold pause.
  cbn [schedule requestAnimationFrame set_frameId frameId cancelAnimationFrame
       set_pending pending nextHandle translate lastProgressStep currentTime
       lastFrameTimestamp published layout sliderWidth sliderHeight duplicates].
  rewrite Hp. cbn [List.app filter fst]. rewrite Pos.eqb_refl. cbn [negb].
  repeat split.
Qed.

(** ** The viewport gate *)

(** X11: the offsets and the viewport height act in one direction only: a
    slider that counts as in the viewport still does when [offsetTop] or
    [offsetBottom] is lowered or the viewport is taller. *)
Theorem X11_gate_monotone cfg cfg' rect ih ih' :
  isInViewport cfg rect ih = true ->
  offsetTop cfg' <= offsetTop cfg ->
  offsetBottom cfg' <= offsetBottom cfg ->
  ih <= ih' ->
  isInViewport cfg' rect ih' = true.
Proof.
  unfold isInViewport. rewrite !andb_true_iff, !Qltb_lt. intros [A B] C D E.
  split; lra.
Qed.

(** X11 at the default offsets: a box at 10 with height 40 in a viewport 800
    high stays in the viewport with negative offsets and 900 pixels. *)
Lemma X11_gate_monotone_witness :
  isInViewport (mkProps TOTAL_TIME (-5) (-5) FPS) (mkRect 10 40) 900 = true.
Proof.
  apply (X11_gate_monotone default_props (mkProps TOTAL_TIME (-5) (-5) FPS)
           (mkRect 10 40) 800 900).
  - reflexivity.
  - cbn. discriminate.
  - cbn. discriminate.
  - discriminate.
Defined.

(** ** What each kind of event touches *)

(** X13: frames never change the measured width, height or count; scrolls,
    visibility changes and resizes never publish and never change the
    progress, the saved progress, the cycle start or the throttle
    timestamp. *)
Theorem X13_events_separate cfg (e : Event) (s : State) :
  match e with
  | Frame _ => layout (step cfg e s) = layout s
  | _ =>
      published (step cfg e s) = published s
      /\ translate (step cfg e s) = translate s
      /\ lastProgressStep (step cfg e s) = lastProgressStep s
      /\ currentTime (step cfg e s) = currentTime s
      /\ lastFrameTimestamp (step cfg e s) = lastFrameTimestamp s
  end.
Proof.
  destruct e; cbn [step].
  - apply frame_layout.
  - unfold handleViewportState, pause, play.
    destruct (negb _); destruct (frameId s); repeat split.
  - unfold handleVisibilityChange, pause, play.
    destruct (String.eqb visibilityState "hidden"); destruct (_ && _);
      cbn [frameId set_frameId]; destruct (frameId s); repeat split.
  - unfold updateSliderHeight, duplicateSlides. split_ifs; repeat split.
Qed.

(** ** The animation driver *)

(** X12: a callback ends the cycle, publishing a value and then 0, exactly
    when it is accepted and at least the total time has passed since the
    cycle start; it then clears the cycle start and the throttle timestamp
    and leaves the progress at 0, and the next callback, whenever it
    comes, becomes the start of the next cycle. *)
Theorem X12_cycle_end cfg ts s :
  0 < totalTime cfg ->
  ((exists p, published (animateSlider cfg ts s) = 0 :: p :: published s)
   <-> (fps cfg < elapsed_at ts s
        /\ totalTime cfg <= ts - init_if_falsy (currentTime s) ts))
  /\ ((exists p, published (animateSlider cfg ts s) = 0 :: p :: published s) ->
      currentTime (animateSlider cfg ts s) = None
      /\ lastFrameTimestamp (animateSlider cfg ts s) = None
      /\ translate (animateSlider cfg ts s) = 0
      /\ forall ts',
           currentTime (animateSlider cfg ts' (animateSlider cfg ts s))
           = Some ts').
Proof.
  intro HT.
  assert (Hle : progress_at cfg ts s <= 1) by apply Q.le_min_r.
  assert (Hone : 1 <= progress_at cfg ts s
                 <-> totalTime cfg <= ts - init_if_falsy (currentTime s) ts).
  { unfold progress_at. split; intro H.
    - assert (H1 : 1 <= (ts - init_if_falsy (currentTime s) ts) / totalTime cfg).
      { eapply Qle_trans; [exact H | apply Q.le_min_l]. }
      apply (scale_le _ _ _ HT) in H1. lra.
    - apply Q.min_glb; [| lra]. apply le_div; [exact HT | lra]. }
  destruct (animateSlider_cases cfg ts s) as [[H E] | [[H [P E]] | [H [P E]]]].
  - split.
    + split.
      * intros [p Ep]. rewrite E in Ep. cbn in Ep. now elim (cons2_neq _ _ _ (eq_sym Ep)).
      * intros [H' _]. lra.
    + intros [p Ep]. rewrite E in Ep. cbn in Ep.
      now elim (cons2_neq _ _ _ (eq_sym Ep)).
  - assert (N : ~ exists p, published (animateSlider cfg ts s)
                            = 0 :: p :: published s).
    { intros [p Ep]. rewrite E in Ep. cbn in Ep.
      apply (f_equal (@List.length Q)) in Ep. cbn in Ep. lia. }
    split.
    + split; [intro X; now elim N |]. intros [_ H']. apply Hone in H'. lra.
    + intro X. now elim N.
  - split.
    + split; [intros _; split; [exact H | now apply Hone] |].
      intros _. exists (progress_at cfg ts s). rewrite E. reflexivity.
    + intros _. rewrite E.
      split; [reflexivity |]. split; [reflexivity |]. split; [reflexivity |].
      intros ts'.
      match goal with
      | |- currentTime (animateSlider cfg ts' ?x) = _ => set (y := x)
      end.
      assert (Hy : currentTime y = None) by reflexivity.
      assert (Hp : progress_at cfg ts' y < 1).
      { unfold progress_at. rewrite Hy. cbn [init_if_falsy].
        eapply Qle_lt_trans; [apply Q.le_min_l |].
        unfold Qminus. rewrite Qplus_opp_r. unfold Qdiv. rewrite Qmult_0_l. lra. }
      destruct (animateSlider_published cfg ts' y)
        as [[_ [_ [_ [Ec _]]]] | [_ [_ [[_ [_ Ec]] | [P' _]]]]];
        [| | lra]; rewrite Ec, Hy; reflexivity.
Qed.

(** X12 at a frame 10100 ms after a cycle that started at 100 ms. *)
Lemma X12_cycle_end_witness :
  currentTime
    (animateSlider default_props 10200
       (run default_props [Frame 100; Frame 120; Frame 10100] example_mount))
  = None.
Proof.
  refine (proj1 (proj2 (X12_cycle_end default_props 10200
                          (run default_props [Frame 100; Frame 120; Frame 10100]
                               example_mount) _) _)).
  - reflexivity.
  - eexists. vm_compute. reflexivity.
Defined.

Lemma timed_frames_ge (now : Q) (l : list Event) (t : Q) :
  timed now l -> In (Frame t) l -> now <= t.
Proof.
  revert now. induction l as [| e l IH]; intros now H Hin; [easy |].
  destruct Hin as [E | Hin].
  - subst e. cbn [timed] in H. apply H.
  - destruct e; cbn [timed] in H; try (apply IH; assumption).
    destruct H as [_ [H1 H2]]. specialize (IH _ H2 Hin). lra.
Qed.

Lemma step_throttle_kept cfg (e : Event) (s : State) :
  (forall t, e <> Frame t) ->
  lastFrameTimestamp (step cfg e s) = lastFrameTimestamp s.
Proof.
  intro H. destruct e; cbn [step].
  - now elim (H timestamp).
  - unfold handleViewportState, pause, play.
    destruct (negb _); destruct (frameId s); reflexivity.
  - unfold handleVisibilityChange, pause, play.
    destruct (String.eqb visibilityState "hidden"); destruct (_ && _);
      cbn [frameId set_frameId]; destruct (frameId s); reflexivity.
  - unfold updateSliderHeight, duplicateSlides. split_ifs; reflexivity.
Qed.

(** What a frame does to the throttle timestamp of a well-formed queue:
    it publishes only when the stored timestamp is more than the interval
    old, and afterwards the cell is empty, unchanged, or holds the frame's
    own timestamp. *)
Lemma frame_throttle cfg (ts : Q) (s : State) :
  sched_ok cfg s ->
  (published (frame cfg ts s) <> published s ->
   lastFrameTimestamp (frame cfg ts s) = None
   /\ fps cfg < ts - init_if_falsy (lastFrameTimestamp s) ts)
  /\ (lastFrameTimestamp (frame cfg ts s) = None
      \/ lastFrameTimestamp (frame cfg ts s) = lastFrameTimestamp s
      \/ lastFrameTimestamp (frame cfg ts s)
         = Some (init_if_falsy (lastFrameTimestamp s) ts)).
Proof.
  intro Hs. unfold sched_ok in Hs. destruct (frameId s) as [h |].
  - destruct Hs as [cb [P _]]. rewrite (frame_single cfg ts s h cb P).
    assert (G : exists x, run_callback cfg cb ts (set_pending [] s)
                          = animateSlider cfg ts x
                          /\ lastFrameTimestamp x = lastFrameTimestamp s
                          /\ published x = published s).
    { destruct cb; cbn [run_callback]; eexists; repeat split. }
    destruct G as [x [Ex [Lx Px]]]. rewrite Ex.
    destruct (animateSlider_published cfg ts x)
      as [[_ [E [_ [_ El]]]] | [H [El _]]].
    + split; [intro N; rewrite E, Px in N; now elim N |].
      right. right. now rewrite El, Lx.
    + split; [| now left]. intros _. split; [exact El |].
      unfold elapsed_at in H. now rewrite Lx in H.
  - rewrite (frame_idle cfg ts s Hs). split; [intro N; now elim N |].
    right. left. reflexivity.
Qed.

(** X5: the throttle spaces the updates.  When two frames of a run from
    mount both publish, some frame between them, at or after the first, is
    more than the interval older than the second: two frames in a row
    never both publish, and two publishing frames are more than the
    interval apart. *)
Theorem X5_updates_spaced cfg slider n iw before (t1 : Q) mid (t2 : Q) :
  0 <= fps cfg -> 0 < t1 -> timed t1 mid ->
  let s0 := run cfg before (mount slider n iw) in
  let s1 := frame cfg t1 s0 in
  let s2 := run cfg mid s1 in
  published s1 <> published s0 ->
  published (frame cfg t2 s2) <> published s2 ->
  exists l, In (Frame l) mid /\ t1 <= l /\ fps cfg < t2 - l
            /\ fps cfg < t2 - t1.
Proof.
  intros Hfps Ht1 Htimed s0 s1 s2 Hpub1 Hpub2.
  assert (Hs0 : sched_ok cfg s0) by apply sched_ok_run, sched_ok_mount.
  assert (Hs1 : sched_ok cfg s1) by now apply sched_ok_frame.
  assert (L1 : lastFrameTimestamp s1 = None).
  { apply (frame_throttle cfg t1 s0 Hs0). exact Hpub1. }
  assert (Inv : forall rest seen s,
             sched_ok cfg s ->
             (forall t, In (Frame t) rest -> t1 <= t) ->
             match lastFrameTimestamp s with
             | None => True
             | Some l => In (Frame l) seen /\ t1 <= l
             end ->
             sched_ok cfg (run cfg rest s)
             /\ match lastFrameTimestamp (run cfg rest s) with
                | None => True
                | Some l => In (Frame l) (seen ++ rest) /\ t1 <= l
                end).
  { induction rest as [| e rest IH]; intros seen s Hs Hge Hl.
    - cbn. rewrite app_nil_r. split; assumption.
    - change (run cfg (e :: rest) s) with (run cfg rest (step cfg e s)).
      replace (seen ++ e :: rest) with ((seen ++ [e]) ++ rest)
        by (rewrite <- app_assoc; reflexivity).
      apply IH.
      + now apply sched_ok_step.
      + intros t Hin. apply Hge. now right.
      + assert (Hkeep : match lastFrameTimestamp s with
                        | None => True
                        | Some l => In (Frame l) (seen ++ [e]) /\ t1 <= l
                        end).
        { destruct (lastFrameTimestamp s); [| exact I].
          split; [apply in_or_app; left |]; apply Hl. }
        destruct e as [t | | |];
          try (rewrite step_throttle_kept by (intros t; discriminate);
               exact Hkeep).
        cbn [step].
        destruct (proj2 (frame_throttle cfg t s Hs)) as [E | [E | E]];
          rewrite E; [exact I | exact Hkeep |].
        assert (Ht : t1 <= t) by (apply Hge; now left).
        destruct (lastFrameTimestamp s) as [l |].
        * destruct Hl as [Hin Hle]. rewrite init_if_falsy_pos by lra.
          split; [apply in_or_app; now left | exact Hle].
        * cbn [init_if_falsy]. split; [| exact Ht].
          apply in_or_app. right. now left. }
  destruct (Inv mid [] s1 Hs1 (fun t => timed_frames_ge t1 mid t Htimed))
    as [Hs2 Hl2].
  { now rewrite L1. }
  fold s2 in Hs2, Hl2. cbn [app] in Hl2.
  destruct (proj1 (frame_throttle cfg t2 s2 Hs2) Hpub2) as [_ Hacc].
  destruct (lastFrameTimestamp s2) as [l |].
  - destruct Hl2 as [Hin Hle]. rewrite init_if_falsy_pos in Hacc by lra.
    exists l. repeat split; try assumption. lra.
  - cbn [init_if_falsy] in Hacc. lra.
Qed.

(** X5 at frames 100, 120 (publishes), 130 and 150 (publishes). *)
Lemma X5_updates_spaced_witness :
  exists l, In (Frame l) [Frame 130] /\ 120 <= l
            /\ fps default_props < 150 - l
            /\ fps default_props < 150 - 120.
Proof.
  refine (X5_updates_spaced default_props example_slider 3 450
            [Frame 100] 120 [Frame 130] 150 _ _ _ _ _).
  - discriminate.
  - reflexivity.
  - cbn. repeat split; discriminate.
  - intro E. vm_compute in E. discriminate E.
  - intro E. vm_compute in E. discriminate E.
Defined.

Lemma Forall_suffix {A} (P : A -> Prop) (new old : list A) :
  Forall P (new ++ old) -> Forall P old.
Proof. intro H. apply Forall_app in H. apply H. Qed.

(** A frame of a running chain that publishes no 1 keeps the cycle start;
    what it publishes, if anything, is the progress computed from it. *)
Lemma frame_in_cycle cfg (t : Q) (x : State) (o : Q) (h : positive) :
  init_if_falsy (currentTime x) t = o ->
  frameId x = Some h -> pending x = [(h, CbAnimate)] ->
  Forall (fun v => v < 1) (published (frame cfg t x)) ->
  currentTime (frame cfg t x) = Some o
  /\ (exists h', frameId (frame cfg t x) = Some h'
                 /\ pending (frame cfg t x) = [(h', CbAnimate)])
  /\ (published (frame cfg t x) = published x
      \/ published (frame cfg t x)
         = Qmin ((t - o) / totalTime cfg) 1 :: published x).
Proof.
  intros Ho Hf Hp Hall.
  rewrite (frame_single cfg t x h CbAnimate Hp) in *. cbn [run_callback] in *.
  destruct (animateSlider_queue cfg t (set_pending [] x)) as [F P].
  assert (Q' : exists h', frameId (animateSlider cfg t (set_pending [] x)) = Some h'
                          /\ pending (animateSlider cfg t (set_pending [] x))
                             = [(h', CbAnimate)]).
  { eexists. split; [exact F | exact P]. }
  assert (Hprog : progress_at cfg t (set_pending [] x)
                  = Qmin ((t - o) / totalTime cfg) 1).
  { unfold progress_at. cbn [currentTime set_pending]. now rewrite Ho. }
  destruct (animateSlider_published cfg t (set_pending [] x))
    as [[_ [E [_ [Ec _]]]] | [_ [_ [[_ [E Ec]] | [P1 E]]]]].
  - split; [rewrite Ec; cbn [currentTime set_pending]; now rewrite Ho |].
    split; [exact Q' |]. left. exact E.
  - split; [rewrite Ec; cbn [currentTime set_pending]; now rewrite Ho |].
    split; [exact Q' |]. right. now rewrite E, Hprog.
  - rewrite E in Hall. inversion Hall as [| a l1 _ Hall1]; subst.
    inversion Hall1 as [| b l2 Hb _]; subst. lra.
Qed.

Lemma frames_in_cycle cfg (l : list Q) (t : Q) (x : State) (c : Q)
      (h : positive) :
  currentTime x = Some c -> ~ c == 0 ->
  frameId x = Some h -> pending x = [(h, CbAnimate)] ->
  Forall (fun v => v < 1)
         (published (frame cfg t (run cfg (map Frame l) x))) ->
  currentTime (run cfg (map Frame l) x) = Some c
  /\ (published (frame cfg t (run cfg (map Frame l) x))
      = published (run cfg (map Frame l) x)
      \/ published (frame cfg t (run cfg (map Frame l) x))
         = Qmin ((t - c) / totalTime cfg) 1
           :: published (run cfg (map Frame l) x)).
Proof.
  intros Hc Hne. revert x h Hc.
  assert (Hinit : forall t', init_if_falsy (Some c) t' = c).
  { intro t'. unfold init_if_falsy. now rewrite Qeq_bool_false. }
  induction l as [| t' l IH]; intros x h Hc Hf Hp Hall.
  - cbn [map run fold_left] in *.
    assert (Ho : init_if_falsy (currentTime x) t = c) by (rewrite Hc; apply Hinit).
    destruct (frame_in_cycle cfg t x c h Ho Hf Hp Hall) as [_ [_ R]].
    split; [exact Hc | exact R].
  - change (run cfg (map Frame (t' :: l)) x)
      with (run cfg (map Frame l) (frame cfg t' x)) in *.
    assert (Hall' : Forall (fun v => v < 1) (published (frame cfg t' x))).
    { destruct (frame_grows cfg t (run cfg (map Frame l) (frame cfg t' x)))
        as [n1 E1].
      destruct (run_grows cfg (map Frame l) (frame cfg t' x)) as [n2 E2].
      rewrite E1, E2 in Hall.
      apply Forall_suffix in Hall. now apply Forall_suffix in Hall. }
    assert (Ho : init_if_falsy (currentTime x) t' = c) by (rewrite Hc; apply Hinit).
    destruct (frame_in_cycle cfg t' x c h Ho Hf Hp Hall')
      as [Hc' [[h' [Hf' Hp']] _]].
    exact (IH (frame cfg t' x) h' Hc' Hf' Hp' Hall).
Qed.

(** X14: from mount until the first cycle ends, the cycle start is the
    timestamp t0 of the first frame, and a frame at timestamp t publishes
    nothing or exactly min((t - t0) / totalTime, 1), as long as only
    frames arrive. *)
Theorem X14_first_cycle_progress cfg slider n iw (t0 : Q) (l : list Q) (t : Q) :
  ~ t0 == 0 ->
  let s := run cfg (map Frame (t0 :: l)) (mount slider n iw) in
  Forall (fun v => v < 1) (published (frame cfg t s)) ->
  currentTime s = Some t0
  /\ (published (frame cfg t s) = published s
      \/ published (frame cfg t s)
         = Qmin ((t - t0) / totalTime cfg) 1 :: published s).
Proof.
  intros Hne s Hall. subst s.
  change (run cfg (map Frame (t0 :: l)) (mount slider n iw))
    with (run cfg (map Frame l) (frame cfg t0 (mount slider n iw))) in *.
  assert (Hm : currentTime (mount slider n iw) = None
               /\ frameId (mount slider n iw) = Some 1%positive
               /\ pending (mount slider n iw) = [(1%positive, CbAnimate)]).
  { unfold mount, duplicateSlides. split_ifs; repeat split. }
  destruct Hm as [Mc [Mf Mp]].
  assert (Hall' : Forall (fun v => v < 1)
                         (published (frame cfg t0 (mount slider n iw)))).
  { destruct (frame_grows cfg t
                (run cfg (map Frame l) (frame cfg t0 (mount slider n iw))))
      as [n1 E1].
    destruct (run_grows cfg (map Frame l) (frame cfg t0 (mount slider n iw)))
      as [n2 E2].
    rewrite E1, E2 in Hall.
    apply Forall_suffix in Hall. now apply Forall_suffix in Hall. }
  assert (Ho : init_if_falsy (currentTime (mount slider n iw)) t0 = t0)
    by now rewrite Mc.
  destruct (frame_in_cycle cfg t0 (mount slider n iw) t0 1%positive Ho Mf Mp Hall')
    as [Hc [[h [Hf Hp]] _]].
  exact (frames_in_cycle cfg l t _ t0 h Hc Hne Hf Hp Hall).
Qed.

(** X14 at totalTime 1000 with frames at 100, 350 and 600 ms. *)
Lemma X14_first_cycle_progress_witness :
  currentTime
    (run (mkProps 1000 0 0 FPS) (map Frame [100; 350]) example_mount)
  = Some 100.
Proof.
  refine (proj1 (X14_first_cycle_progress (mkProps 1000 0 0 FPS)
                   example_slider 3 450 100 [350] 600 _ _)).
  - discriminate.
  - vm_compute. repeat constructor.
Defined.

(** ** Invariants of a run *)

(** X18: along every run from mount with a positive total time and
    positive, non-decreasing frame timestamps, the saved progress is the
    displayed one and the last value published; the cycle start, when
    set, is not 0 and not later than the latest frame; and when it is
    unset the progress is 0. *)
Theorem X18_run_invariants cfg slider n iw events :
  0 < totalTime cfg -> timed 0 events ->
  let s := run cfg events (mount slider n iw) in
  lastProgressStep s = Some (translate s)
  /\ translate s = hd 0 (published s)
  /\ match currentTime s with
     | Some c => ~ c == 0 /\ c <= clock 0 events
     | None => translate s == 0
     end.
Proof.
  intros HT Htimed s.
  destruct (mount_run_inv cfg slider n iw events HT Htimed)
    as [_ [H1 [[Hp _] [H3 [_ H5]]]]].
  fold s in H1, Hp, H3, H5. split; [exact H1 |]. split; [exact H5 |].
  destruct (currentTime s) as [c |]; [| exact H3].
  destruct H3 as [Hc Hle].
  assert (0 <= totalTime cfg * translate s)
    by (apply Qmult_le_0_compat; lra).
  split; lra.
Qed.

(** X18 at the example slider after a pause and a resume. *)
Lemma X18_run_invariants_witness :
  lastProgressStep
    (run default_props [Frame 100; Frame 120; scroll_out; scroll_in; Frame 5000]
         example_mount)
  = Some (translate
            (run default_props
                 [Frame 100; Frame 120; scroll_out; scroll_in; Frame 5000]
                 example_mount)).
Proof.
  refine (proj1 (X18_run_invariants default_props example_slider 3 450
                   [Frame 100; Frame 120; scroll_out; scroll_in; Frame 5000]
                   _ _)).
  - reflexivity.
  - cbn. repeat split; discriminate.
Defined.

(** X19: along every run from mount the queue holds the callback
    [frameId] names and nothing else, so the component is paused exactly
    when the queue is empty; and a frame that finds a callback queued
    leaves exactly one [animateSlider] callback queued, under the next
    fresh handle, which [frameId] then names. *)
Theorem X19_single_chain cfg slider n iw events (ts : Q) :
  let s := run cfg events (mount slider n iw) in
  (frameId s = None <-> pending s = [])
  /\ (List.length (pending s) <= 1)%nat
  /\ (forall h, frameId s = Some h -> exists cb, pending s = [(h, cb)])
  /\ (frameId s <> None ->
      pending (frame cfg ts s) = [(nextHandle s, CbAnimate)]
      /\ frameId (frame cfg ts s) = Some (nextHandle s))
  /\ (frameId s = None ->
      pending (frame cfg ts s) = [] /\ frameId (frame cfg ts s) = None).
Proof.
  intro s.
  assert (Hs : sched_ok cfg s) by apply sched_ok_run, sched_ok_mount.
  unfold sched_ok in Hs. destruct (frameId s) as [h |] eqn:F.
  - destruct Hs as [cb [P _]]. rewrite P.
    split; [split; discriminate |]. split; [cbn; lia |].
    split; [intros h' E; injection E as <-; now exists cb |].
    split; [| discriminate]. intros _.
    rewrite (frame_single cfg ts s h cb P).
    destruct (run_callback_queue cfg cb ts (set_pending [] s) eq_refl) as [A B].
    split; [exact B | exact A].
  - rewrite Hs. split; [split; reflexivity |]. split; [cbn; lia |].
    split; [discriminate |]. split; [intro N; now elim N |]. intros _.
    rewrite (frame_idle cfg ts s Hs). cbn [pending frameId set_pending].
    split; [reflexivity | exact F].
Qed.

(** ** The renderer's keys *)

Lemma string_of_uint_dash_free (d : uint) :
  dash_free (NilEmpty.string_of_uint d).
Proof.
  induction d; cbn; try exact I; split; try assumption; discriminate.
Qed.

Lemma decimal_inj (a b : nat) : decimal a = decimal b -> a = b.
Proof.
  unfold decimal. intro H. apply Unsigned.to_uint_inj.
  assert (E : Some (Nat.to_uint a) = Some (Nat.to_uint b)).
  { rewrite <- (NilEmpty.usu (Nat.to_uint a)), <- (NilEmpty.usu (Nat.to_uint b)).
    now rewrite H. }
  now injection E.
Qed.

Lemma dash_split (a a' b b' : string) :
  dash_free a -> dash_free a' ->
  (a ++ "-" ++ b = a' ++ "-" ++ b')%string -> a = a' /\ b = b'.
Proof.
  revert a'. induction a as [| c a IH]; intros [| c' a'] Ha Ha' H; cbn in *.
  - injection H as H. now split.
  - injection H as Hc _. destruct Ha' as [N _]. subst c'. now elim N.
  - injection H as Hc _. destruct Ha as [N _]. subst c. now elim N.
  - injection H as Hc H. subst c'.
    destruct (IH a' (proj2 Ha) (proj2 Ha') H) as [E1 E2]. now subst.
Qed.

Lemma slide_id_inj (i k i' k' : nat) :
  slide_id i k = slide_id i' k' -> i = i' /\ k = k'.
Proof.
  unfold slide_id. intro H. cbn [String.append] in H.
  repeat (injection H as H).
  apply dash_split in H; try apply string_of_uint_dash_free.
  destruct H as [H1 H2]. split; now apply decimal_inj.
Qed.

Lemma NoDup_map_inj {B C} (g : B -> C) (l : list B) :
  (forall b b', g b = g b' -> b = b') -> NoDup l -> NoDup (map g l).
Proof.
  intros Hg H. induction H as [| b l Hnin _ IH]; cbn; constructor; [| exact IH].
  intro Hin. apply in_map_iff in Hin. destruct Hin as [b' [E Hb']].
  apply Hg in E. subst b'. now elim Hnin.
Qed.

Lemma NoDup_concat_map {A B C} (f : A -> B -> C) (la : list A) (lb : list B) :
  (forall a b a' b', f a b = f a' b' -> a = a' /\ b = b') ->
  NoDup la -> NoDup lb ->
  NoDup (List.concat (map (fun a => map (f a) lb) la)).
Proof.
  intros Hinj Ha Hb. induction Ha as [| a la Hnin Ha IH]; cbn; [constructor |].
  apply NoDup_app.
  - apply NoDup_map_inj; [| exact Hb].
    intros b b' E. now apply Hinj in E.
  - exact IH.
  - intros x Hx Hx'. apply in_map_iff in Hx. destruct Hx as [b [Ex _]].
    apply in_concat in Hx'. destruct Hx' as [l [Hl Hxl]].
    apply in_map_iff in Hl. destruct Hl as [a' [El Ha']]. subst l.
    apply in_map_iff in Hxl. destruct Hxl as [b' [Ex' _]].
    rewrite <- Ex' in Ex. apply Hinj in Ex. destruct Ex as [Ea _]. subst a'.
    now elim Hnin.
Qed.

(** X10: whenever a render returns, the keys of all its slides, over all
    copies, are pairwise distinct, and the key of a slide determines its
    copy and its index. *)
Theorem X10_keys_distinct {A : Type} (children : list A) (m m' : Memo)
        (s : State) (v : View A) :
  render children m s = Some (v, m') ->
  NoDup (List.concat (map (map key) (slides v)))
  /\ (forall i k i' k', slide_id i k = slide_id i' k' -> i = i' /\ k = k').
Proof.
  intro H. split; [| apply slide_id_inj].
  unfold render in H.
  destruct (useMemo same_height_deps _ _ _) as [hv hm].
  destruct (useMemo same_width_deps _ _ _) as [wv wm].
  destruct (Js.array_length (duplicates s)) as [n |]; [| discriminate H].
  injection H as Hv _. subst v. cbn [slides].
  rewrite map_map.
  rewrite (map_ext _ (fun i => map (slide_id i)
                                   (seq 0 (List.length children)))).
  - apply NoDup_concat_map; [apply slide_id_inj | apply seq_NoDup ..].
  - intro i. rewrite map_map. cbn [key].
    rewrite <- (map_map fst (slide_id i)). now rewrite combine_seq_fst.
Qed.

(** X10 at the first render after mount of the example slider. *)
Lemma X10_keys_distinct_witness :
  exists v m',
    render example_children no_memo example_mount = Some (v, m')
    /\ NoDup (List.concat (map (map key) (slides v))).
Proof.
  destruct (render example_children no_memo example_mount)
    as [[v m'] |] eqn:E; [| vm_compute in E; discriminate E].
  exists v, m'. split; [reflexivity |].
  exact (proj1 (X10_keys_distinct example_children no_memo m' example_mount v E)).
Defined.

(** ** Rendering before and after measurement *)

Lemma slide_height_get (hv : CssValue) :
  style_get "height" (slideStyle ++ [("height", hv)%string]) = Some hv.
Proof. reflexivity. Qed.

(** X15: while the strip width is unmeasured, every render that returns
    writes the transform with NaN pixels and, computing the width anew,
    the width "auto". *)
Theorem X15_unmeasured_render {A : Type} (children : list A) (m m' : Memo)
        (s : State) (v : View A) :
  sliderWidth s = Auto ->
  render children m s = Some (v, m') ->
  style_get "transform" (container_style v) = Some (CssTranslate Js.NaN)
  /\ style_get "height" (container_style v) = None
  /\ (widthMemo m = None ->
      style_get "width" (container_style v) = Some (CssKeyword "auto")).
Proof.
  intros Hw H. unfold render in H.
  destruct (useMemo same_height_deps _ _ _) as [hv hm].
  destruct (useMemo same_width_deps (widthMemo m) _ _) as [wv wm] eqn:W.
  destruct (Js.array_length (duplicates s)) as [n |]; [| discriminate H].
  injection H as Hv _. subst v. cbn [container_style].
  rewrite Hw. cbn [to_number Js.mul style_get String.eqb Ascii.eqb Bool.eqb].
  split; [reflexivity |]. split; [reflexivity |].
  intro Hm. rewrite Hm in W. cbn [useMemo] in W. injection W as W _.
  rewrite <- W, Hw. reflexivity.
Qed.

(** X15 at the first render of the component. *)
Lemma X15_unmeasured_render_witness :
  exists v m',
    render example_children no_memo initial_state = Some (v, m')
    /\ style_get "transform" (container_style v) = Some (CssTranslate Js.NaN).
Proof.
  destruct (render example_children no_memo initial_state)
    as [[v m'] |] eqn:E; [| vm_compute in E; discriminate E].
  exists v, m'. split; [reflexivity |].
  exact (proj1 (X15_unmeasured_render example_children no_memo m'
                  initial_state v eq_refl E)).
Defined.

Lemma same_size_eq (a b : Size) : same_size a b = true -> a = b.
Proof.
  destruct a, b; cbn; try discriminate; try reflexivity.
  intro H. apply Z.eqb_eq in H. now subst.
Qed.

(** The height cache always holds the value of its own dependency. *)
Lemma render_height {A : Type} (children : list A) (m m' : Memo) (s : State)
      (v : View A) :
  (forall d hv, heightMemo m = Some (d, hv) -> hv = height_css d) ->
  render children m s = Some (v, m') ->
  Forall (Forall (fun sl => style_get "height" (style sl)
                            = Some (height_css (sliderHeight s))))
         (slides v)
  /\ (forall d hv, heightMemo m' = Some (d, hv) -> hv = height_css d).
Proof.
  intros Hm H. unfold render in H.
  assert (G : fst (useMemo same_height_deps (heightMemo m) (sliderHeight s)
                     (fun _ => height_css (sliderHeight s)))
              = height_css (sliderHeight s)
              /\ forall d hv,
                   snd (useMemo same_height_deps (heightMemo m) (sliderHeight s)
                          (fun _ => height_css (sliderHeight s)))
                   = Some (d, hv) -> hv = height_css d).
  { unfold useMemo. destruct (heightMemo m) as [[d hv] |] eqn:C.
    - destruct (same_height_deps d (sliderHeight s)) eqn:Sd; cbn [fst snd].
      + apply same_size_eq in Sd. subst d. split; [now apply Hm |].
        intros d' hv' E. injection E as <- <-. now apply Hm.
      + split; [reflexivity |]. intros d' hv' E. now injection E as <- <-.
    - cbn [fst snd]. split; [reflexivity |].
      intros d' hv' E. now injection E as <- <-. }
  destruct (useMemo same_height_deps _ _ _) as [hv hm].
  destruct (useMemo same_width_deps _ _ _) as [wv wm].
  cbn [fst snd] in G. destruct G as [G1 G2]. subst hv.
  destruct (Js.array_length (duplicates s)) as [n |]; [| discriminate H].
  injection H as Hv Hm'. subst v m'. cbn [slides heightMemo].
  split; [| exact G2].
  apply Forall_map. apply Forall_forall. intros i _.
  apply Forall_map. apply Forall_forall. intros kc _.
  cbn [style]. apply slide_height_get.
Qed.

(** X16: the cached height is never stale.  Through any sequence of
    renders, whatever the states and children, every slide of every
    returned view is styled with the height of that render's own state. *)
Theorem X16_height_never_stale {A : Type} (renders : list (list A * State)) :
  Forall2 (fun r o =>
             match o with
             | Some v =>
                 Forall (Forall (fun sl =>
                                   style_get "height" (style sl)
                                   = Some (height_css (sliderHeight (snd r)))))
                        (slides v)
             | None => True
             end)
          renders (render_all no_memo renders).
Proof.
  assert (G : forall m,
             (forall d hv, heightMemo m = Some (d, hv) -> hv = height_css d) ->
             Forall2 (fun (r : list A * State) o =>
                        match o with
                        | Some v =>
                            Forall (Forall (fun sl =>
                                              style_get "height" (style sl)
                                              = Some (height_css (sliderHeight (snd r)))))
                                   (slides v)
                        | None => True
                        end)
                     renders (render_all m renders)).
  { induction renders as [| [children s] rest IH]; intros m Hm; cbn [render_all].
    - constructor.
    - destruct (render children m s) as [[v m'] |] eqn:E.
      + destruct (render_height children m m' s v Hm E) as [H1 H2].
        constructor; [exact H1 | now apply IH].
      + constructor; [exact I | now apply IH]. }
  apply G. intros d hv E. discriminate E.
Qed.

(** ** A change of the number of children *)

(** X17: a render with another number of children measures width and
    height anew and computes the count from the new width, keeps the
    progress, the cycle start and what was published, and queues one more
    [animateSlider] callback behind whatever is queued, cancelling
    nothing. *)
Theorem X17_children_changed (slider : SliderRef) (n : nat) (iw : Z)
        (s : State) :
  let s' := children_changed slider n iw s in
  sliderWidth s' = Num (totalWidth (getSlidesData slider n))
  /\ sliderHeight s' = Num (maxHeight (getSlidesData slider n))
  /\ duplicates s'
     = duplicates
         (duplicateSlides iw
            (setSliderWidth (Num (totalWidth (getSlidesData slider n))) s))
  /\ translate s' = translate s
  /\ currentTime s' = currentTime s
  /\ lastFrameTimestamp s' = lastFrameTimestamp s
  /\ published s' = published s
  /\ pending s' = pending s ++ [(nextHandle s, CbAnimate)]
  /\ frameId s' = Some (nextHandle s).
Proof.
  intro s'. subst s'.
  unfold children_changed, start_effect, updateSliderHeight, duplicateSlides.
  cbn [schedule requestAnimationFrame set_frameId setSliderWidth
       setSliderHeight sliderWidth].
  split_ifs; repeat split.
Qed.

(** ** Resuming *)

(** X20: in a paused state reached from mount, with displayed progress p,
    the frame at ts that follows a play runs the resume closure and
    nothing else: [animateSlider] at ts with the cycle start set to
    ts - totalTime * p.  The throttle measures the elapsed time it would
    have measured without the pause; held back, the closure publishes
    nothing, and let through it publishes the progress computed at ts
    from that cycle start, followed by 0 should it be 1.  Exactly one
    [animateSlider] callback is queued afterwards.  The progress computed
    from the same cycle start at a later timestamp is not smaller.  And
    when the callback leaves a cycle start and frames that publish
    nothing follow, the cycle start stays, and the next frame to publish,
    at t, publishes the progress computed at t from it. *)
Theorem X20_resume_anchor cfg slider n iw events (ts : Q) :
  0 < totalTime cfg ->
  timed 0 events -> 0 < ts -> clock 0 events <= ts ->
  frameId (run cfg events (mount slider n iw)) = None ->
  let s := run cfg events (mount slider n iw) in
  let x := resumed_at cfg ts s in
  let s1 := frame cfg ts (play cfg s) in
  s1 = animateSlider cfg ts x
  /\ currentTime x = Some (ts - totalTime cfg * translate s)
  /\ elapsed_at ts x = elapsed_at ts s
  /\ (elapsed_at ts s <= fps cfg ->
      published s1 = published s /\ translate s1 = translate s)
  /\ (fps cfg < elapsed_at ts s ->
      published s1 = progress_at cfg ts x :: published s
      \/ published s1 = 0 :: progress_at cfg ts x :: published s)
  /\ frameId s1 = Some (Pos.succ (nextHandle s))
  /\ pending s1 = [(Pos.succ (nextHandle s), CbAnimate)]
  /\ (forall t, ts <= t -> progress_at cfg ts x <= progress_at cfg t x)
  /\ (forall later t c,
         currentTime s1 = Some c ->
         published (run cfg (map Frame later) s1) = published s1 ->
         let s2 := run cfg (map Frame later) s1 in
         currentTime s2 = Some c
         /\ (elapsed_at t s2 <= fps cfg ->
             published (frame cfg t s2) = published s2)
         /\ (fps cfg < elapsed_at t s2 ->
             published (frame cfg t s2)
             = progress_at cfg t s1 :: published s2
             \/ published (frame cfg t s2)
                = 0 :: progress_at cfg t s1 :: published s2)).
Proof.
  intros HT Htimed Hts Hclock Hf s x s1.
  destruct (mount_run_inv cfg slider n iw events HT Htimed) as [Hs Ht].
  fold s in Hs, Ht, Hf.
  assert (Hl : lastProgressStep s = Some (translate s)) by apply Ht.
  destruct (resume_callback cfg ts s Hs Hl Hf) as [E [He [Hp Hq]]].
  fold x in E, He, Hp, Hq. fold s1 in E.
  destruct (resume_published cfg ts s Hs Hl Hf) as [Hthr Hacc].
  fold x in Hacc. fold s1 in Hthr, Hacc.
  destruct (animateSlider_queue cfg ts x) as [F P].
  rewrite <- E in F, P. rewrite Hq in P.
  assert (Hn : nextHandle x = Pos.succ (nextHandle s)).
  { subst x. unfold resumed_at. rewrite (play_paused cfg s Hf). reflexivity. }
  rewrite Hn in F, P.
  split; [exact E |]. split; [reflexivity |]. split; [exact He |].
  split.
  { intro H. split; [exact (Hthr H) |].
    destruct (animateSlider_published cfg ts x) as [[_ [_ [Etr _]]] | [H' _]].
    - rewrite E, Etr. subst x. unfold resumed_at.
      rewrite (play_paused cfg s Hf). reflexivity.
    - rewrite He in H'. lra. }
  split; [exact Hacc |]. split; [exact F |]. split; [exact P |].
  split; [intros t Hle; now apply progress_at_mono |].
  intros later t c Hc Hquiet s2.
  assert (Hcpos : 0 < c).
  { destruct (resume_first_callback cfg _ ts _ HT Hts Hclock Hs Ht Hf)
      as [[c' [Hc' [_ Hpos]]] _].
    fold s1 in Hc'. congruence. }
  destruct (quiet_frames cfg later s1 c _ Hc Hcpos F P Hquiet)
    as [Hc2 [_ [h2 [_ Hp2]]]].
  fold s2 in Hc2, Hp2.
  split; [exact Hc2 |].
  rewrite (frame_single cfg t s2 h2 CbAnimate Hp2). cbn [run_callback].
  assert (Hpr : progress_at cfg t (set_pending [] s2) = progress_at cfg t s1).
  { unfold progress_at. cbn [currentTime set_pending]. rewrite Hc2, Hc.
    reflexivity. }
  destruct (animateSlider_published cfg t (set_pending [] s2))
    as [[H [Pu _]] | [H [_ [[_ [Pu _]] | [_ Pu]]]]];
    change (elapsed_at t (set_pending [] s2)) with (elapsed_at t s2) in H;
    rewrite Pu; try rewrite Hpr; cbn [published set_pending];
    split; intro H'; try lra; auto.
Qed.

(** X20 at the example slider, paused after a throttled frame and resumed
    by the callback at 5000. *)
Lemma X20_resume_anchor_witness :
  frame default_props 5000
    (play default_props
       (run default_props [Frame 100; Frame 120; Frame 130; scroll_out]
            example_mount))
  = animateSlider default_props 5000
      (resumed_at default_props 5000
         (run default_props [Frame 100; Frame 120; Frame 130; scroll_out]
              example_mount)).
Proof.
  refine (proj1 (X20_resume_anchor default_props example_slider 3 450
                   [Frame 100; Frame 120; Frame 130; scroll_out] 5000
                   _ _ _ _ _)).
  - reflexivity.
  - cbn. repeat split; discriminate.
  - reflexivity.
  - cbn. discriminate.
  - reflexivity.
Defined.

(** X21: rounding on resume.  Frames arrive at 100, 133.4 (accepted) and
    140 (throttled); the slider is paused and played, and the resume
    callback comes at 5000.  On binary64 numbers the callback publishes
    0.0033399999999999637 after the 0.0033400000000000005 that was
    retained: the progress steps back within the cycle.  On exact
    rationals the same run publishes 0.00334 twice. *)
Theorem X21_resume_rounds_down :
  F64.lastProgressStep (F64.pause F64.before_pause)
  = Some (hd PrimFloat.nan (F64.published F64.before_pause))
  /\ (exists v p,
        F64.published F64.before_pause = [p]
        /\ F64.published F64.resumed = [v; p]
        /\ PrimFloat.ltb v p = true
        /\ PrimFloat.ltb PrimFloat.zero v = true)
  /\ (exists v p,
        published example_resumed = [v; p] /\ v == p /\ p == 0.00334).
Proof.
  split; [vm_compute; reflexivity |]. split.
  - do 2 eexists. repeat split; vm_compute; reflexivity.
  - do 2 eexists. split; [vm_compute; reflexivity |].
    split; vm_compute; reflexivity.
Qed.
